(** * The replication engine of [scripts/etl_pipeline.py]

    A shallow embedding of [DatabaseReplicator]: the target SQLite file and
    its connection (with the implicit transactions of Python's [sqlite3]
    module), the source database, the execution log, the logger and the
    report directory are explicit state; Python exceptions are an explicit
    outcome.  Every method of the class is a computation in a small
    state-and-exception monad and keeps the name it has in the source. *)

From Stdlib Require Import ZArith QArith.
From stdpp Require Import gmap strings list fin_maps.

Local Open Scope Z_scope.
Local Open Scope string_scope.
Local Open Scope list_scope.
Local Open Scope stdpp_scope.

(** ** Values, rows and datasets *)

(** A cell of a DataFrame or of a table.  REAL cells are kept as exact
    fractions; no claim below depends on rounding. *)
Inductive value :=
  | VNull
  | VInt (n : Z)
  | VReal (num : Z) (den : positive)
  | VText (s : string).

#[global] Instance value_eq_dec : EqDecision value.
Proof. solve_decision. Defined.

(** A row maps column names to cells, a dataset ([pd.DataFrame]) is the list
    of its rows, [len(df)] is the length of that list. *)
Abbreviation row := (gmap string value).
Abbreviation dataset := (list (gmap string value)).

(** ** The target database *)

Record column := Column { col_name : string; col_decl : string }.

#[global] Instance column_eq_dec : EqDecision column.
Proof. solve_decision. Defined.

(** [FOREIGN KEY (fk_column) REFERENCES fk_table(fk_key)] *)
Record foreign_key := ForeignKey { fk_column : string; fk_table : string; fk_key : string }.

#[global] Instance foreign_key_eq_dec : EqDecision foreign_key.
Proof. solve_decision. Defined.

Record table := Table {
  tbl_columns : list column;
  tbl_foreign_keys : list foreign_key;
  tbl_rows : dataset
}.

(** [CREATE INDEX idx ON idx_table(idx_column)] *)
Record index := Index { idx_table : string; idx_column : string }.

#[global] Instance index_eq_dec : EqDecision index.
Proof. solve_decision. Defined.

Record database := Database {
  db_tables : gmap string table;
  db_indexes : gmap string index
}.

Definition empty_database : database := Database ∅ ∅.

(** ** Outcomes: a value, or a raised Python exception with its text *)

Inductive outcome (A : Type) :=
  | Ok (a : A)
  | Raise (e : string).
Arguments Ok {A} a.
Arguments Raise {A} e.

(** ** SQL statements on a database *)

Definition with_rows (t : table) (rows : dataset) : table :=
  Table (tbl_columns t) (tbl_foreign_keys t) rows.

Definition set_table (name : string) (t : table) (db : database) : database :=
  Database (<[name := t]> (db_tables db)) (db_indexes db).

Definition rows_of (name : string) (db : database) : option dataset :=
  tbl_rows <$> db_tables db !! name.

(** [CREATE TABLE IF NOT EXISTS name (...)]: nothing happens when a table of
    that name is there already, whatever its columns. *)
Definition create_table_if_not_exists
    (name : string) (cols : list column) (fks : list foreign_key)
    (db : database) : outcome database :=
  match db_tables db !! name with
  | Some _ => Ok db
  | None => Ok (set_table name (Table cols fks []) db)
  end.

Definition has_column (c : string) (t : table) : bool :=
  bool_decide (c ∈ col_name <$> tbl_columns t).

(** [CREATE INDEX IF NOT EXISTS idx ON tbl(col)]: nothing happens when the
    index exists; otherwise the table and the column have to exist. *)
Definition create_index_if_not_exists
    (idx tbl col : string) (db : database) : outcome database :=
  match db_indexes db !! idx with
  | Some _ => Ok db
  | None =>
      match db_tables db !! tbl with
      | None => Raise ("no such table: main." +:+ tbl)
      | Some t =>
          if has_column col t
          then Ok (Database (db_tables db) (<[idx := Index tbl col]> (db_indexes db)))
          else Raise ("table " +:+ tbl +:+ " has no column named " +:+ col)
      end
  end.

(** [DELETE FROM name] *)
Definition delete_from (name : string) (db : database) : outcome database :=
  match db_tables db !! name with
  | None => Raise ("no such table: " +:+ name)
  | Some t => Ok (set_table name (with_rows t []) db)
  end.

(** Rows appended to an existing table ([INSERT INTO name ...]). *)
Definition insert_rows (name : string) (rows : dataset) (db : database) : outcome database :=
  match db_tables db !! name with
  | None => Raise ("no such table: " +:+ name)
  | Some t => Ok (set_table name (with_rows t (tbl_rows t ++ rows)) db)
  end.

(** [SELECT COUNT( * ) FROM name] *)
Definition select_count (name : string) (db : database) : outcome nat :=
  match rows_of name db with
  | None => Raise ("no such table: " +:+ name)
  | Some rows => Ok (length rows)
  end.

(** SQLite's [SUM(col)]: NULL when no row has a non-NULL cell in the column
    (in particular on an empty table), the sum of the numeric cells
    otherwise.  [AVG(col)] is NULL in exactly the same cases. *)
Definition cell_number (v : value) : option Q :=
  match v with
  | VNull => None
  | VInt n => Some (inject_Z n)
  | VReal num den => Some (Qmake num den)
  | VText _ => Some (inject_Z 0)
  end.

Definition column_numbers (col : string) (rows : dataset) : list Q :=
  omap (fun r : row => cell_number (default VNull (r !! col))) rows.

Definition Qsum (qs : list Q) : Q := Qred (foldr Qplus (inject_Z 0) qs).

Definition sql_sum (col : string) (rows : dataset) : option Q :=
  match column_numbers col rows with
  | [] => None
  | qs => Some (Qsum qs)
  end.

Definition sql_avg (col : string) (rows : dataset) : option Q :=
  match column_numbers col rows with
  | [] => None
  | qs => Some (Qred (Qdiv (Qsum qs) (inject_Z (Z.of_nat (length qs)))))
  end.

(** ** The replicator's state and its surroundings *)

(** The source connection ([psycopg2]) only matters as open or closed. *)
Record handle := Handle { src_closed : bool }.

(** The target connection ([sqlite3]): [txn = Some w] when a transaction is
    open, [w] being the database as this connection sees it; the committed
    database is the file, [target_db] below. *)
Record connection := Connection { txn : option database; closed : bool }.

Inductive status := SUCCESS | ERROR.

#[global] Instance status_eq_dec : EqDecision status.
Proof. solve_decision. Defined.

Definition status_text (s : status) : string :=
  match s with SUCCESS => "SUCCESS" | ERROR => "ERROR" end.

(** An entry of [self.execution_log]; [time] in microseconds. *)
Record log_entry := LogEntry {
  table_ : string;
  records : nat;
  time : Z;
  status_ : status;
  error : option string
}.

(** The document written by [run_full_replication] under [reports/]. *)
Record report := Report {
  timestamp : string;
  total_tables : nat;
  successful_tables : nat;
  failed_tables : nat;
  total_records_processed : nat;
  total_execution_time : Z;
  tables_detail : list log_entry
}.

(** The lines the module's [logger] receives, one constructor per call. *)
Inductive log_line :=
  | LogRunStart
  | LogSourceConnected
  | LogSourceConnectError (e : string)
  | LogTargetConnected
  | LogTargetConnectError (e : string)
  | LogSchemaCreated
  | LogSchemaError (e : string)
  | LogExtracted (n : nat) (table_name : string)
  | LogExtractError (table_name e : string)
  | LogLoaded (n : nat) (table_name : string) (t : Z)
  | LogLoadError (table_name e : string)
  | LogReplicating (table_name : string)
  | LogValidating
  | LogCountOk (table_name : string) (n : nat)
  | LogCountMismatch (table_name : string) (source_count target_count : nat)
  | LogMetrics (revenue : Q) (sales : nat) (avg : Q)
  | LogValidationError (e : string)
  | LogRunOk
  | LogRunWithErrors
  | LogReportSaved
  | LogCriticalError (e : string).

Record state := State {
  source_conn : option handle;        (* self.source_conn *)
  target_conn : option connection;    (* self.target_conn *)
  execution_log : list log_entry;     (* self.execution_log *)
  target_db : database;               (* the committed target file *)
  reports : list report;              (* the files under reports/ *)
  logged : list log_line              (* what the logger received *)
}.

Definition set_source_conn (h : option handle) (s : state) : state :=
  State h (target_conn s) (execution_log s) (target_db s) (reports s) (logged s).
Definition set_target_conn (c : option connection) (s : state) : state :=
  State (source_conn s) c (execution_log s) (target_db s) (reports s) (logged s).
Definition set_execution_log (l : list log_entry) (s : state) : state :=
  State (source_conn s) (target_conn s) l (target_db s) (reports s) (logged s).
Definition set_target_db (db : database) (s : state) : state :=
  State (source_conn s) (target_conn s) (execution_log s) db (reports s) (logged s).
Definition set_reports (r : list report) (s : state) : state :=
  State (source_conn s) (target_conn s) (execution_log s) (target_db s) r (logged s).
Definition set_logged (l : list log_line) (s : state) : state :=
  State (source_conn s) (target_conn s) (execution_log s) (target_db s) (reports s) l.

(** [DatabaseReplicator.__init__] next to a given target file. *)
Definition init (db : database) : state := State None None [] db [] [].

(** ** The state-and-exception monad *)

Definition M (A : Type) : Type := state -> state * outcome A.

Definition ret {A} (a : A) : M A := fun s => (s, Ok a).

Definition raise {A} (e : string) : M A := fun s => (s, Raise e).

Definition bind {A B} (m : M A) (k : A -> M B) : M B := fun s =>
  match m s with
  | (s', Ok a) => k a s'
  | (s', Raise e) => (s', Raise e)
  end.

(** [try: body / except Exception as e: handler e] *)
Definition try_except {A} (body : M A) (handler : string -> M A) : M A := fun s =>
  match body s with
  | (s', Ok a) => (s', Ok a)
  | (s', Raise e) => handler e s'
  end.

(** [try: body / finally: cleanup]; a [return] inside [body] is its value. *)
Definition try_finally {A} (body : M A) (cleanup : M unit) : M A := fun s =>
  match body s with
  | (s', r) =>
      match cleanup s' with
      | (s'', Ok _) => (s'', r)
      | (s'', Raise e) => (s'', Raise e)
      end
  end.

Notation "'let!' x ':=' m 'in' k" := (bind m (fun x => k))
  (at level 10, x name, m at level 100, k at level 200).
Notation "m '>>' k" := (bind m (fun _ => k))
  (at level 100, k at level 200, right associativity).

Definition get : M state := fun s => (s, Ok s).
Definition modify (f : state -> state) : M unit := fun s => (f s, Ok tt).

Definition log (l : log_line) : M unit :=
  modify (fun s => set_logged (logged s ++ [l]) s).

(** ** Statements through the target connection

    Python's [sqlite3] module opens a transaction implicitly before an
    INSERT or DELETE; nothing reaches the file before [commit].  Outside a
    transaction a CREATE statement is applied to the file at once. *)

Definition view (c : connection) (s : state) : database :=
  default (target_db s) (txn c).

(** The connection behind [self.target_conn], when it can be used. *)
Definition target_cursor : M connection := fun s =>
  match target_conn s with
  | None => (s, Raise "'NoneType' object has no attribute 'cursor'")
  | Some c =>
      if closed c then (s, Raise "Cannot operate on a closed database.")
      else (s, Ok c)
  end.

(** [cursor.execute] of an INSERT or DELETE. *)
Definition execute_dml (stmt : database -> outcome database) : M unit :=
  let! c := target_cursor in
  fun s =>
    match stmt (view c s) with
    | Ok db => (set_target_conn (Some (Connection (Some db) false)) s, Ok tt)
    | Raise e => (s, Raise e)
    end.

(** [cursor.execute] of a CREATE TABLE or CREATE INDEX. *)
Definition execute_ddl (stmt : database -> outcome database) : M unit :=
  let! c := target_cursor in
  fun s =>
    match stmt (view c s) with
    | Ok db =>
        match txn c with
        | Some _ => (set_target_conn (Some (Connection (Some db) false)) s, Ok tt)
        | None => (set_target_db db s, Ok tt)
        end
    | Raise e => (s, Raise e)
    end.

(** [cursor.execute] of a SELECT, seen through the open transaction. *)
Definition query {A} (q : database -> outcome A) : M A :=
  let! c := target_cursor in
  fun s => (s, q (view c s)).

(** [self.target_conn.commit()] *)
Definition commit : M unit :=
  let! c := target_cursor in
  modify (fun s => set_target_conn (Some (Connection None false)) (set_target_db (view c s) s)).

(** [con.rollback()] *)
Definition rollback : M unit :=
  let! c := target_cursor in
  modify (set_target_conn (Some (Connection None false))).

(** [self.target_conn.close()]: what was not committed is lost. *)
Definition close_target : M unit :=
  modify (fun s =>
    match target_conn s with
    | Some c => set_target_conn (Some (Connection None true)) s
    | None => s
    end).

Definition close_source : M unit :=
  modify (fun s =>
    match source_conn s with
    | Some h => set_source_conn (Some (Handle true)) s
    | None => s
    end).

(** ** What the run does not control *)

(** How the call [df.to_sql(table_name, con, if_exists='append')] ends.
    pandas runs the INSERTs of a frame in a transaction scope of its own on
    the caller's connection: it commits when they succeed, and when one of
    them raises it rolls the connection back and re-raises.  Preparing the
    frame comes before that scope; an exception raised there leaves the
    connection as the caller had it. *)
Inductive to_sql_outcome :=
  | Inserted
  | RaisedBeforeInsert (e : string)
  | RaisedInInsert (e : string).

Record environment := Environment {
  source_reachable : bool;                   (* psycopg2.connect succeeds *)
  target_reachable : bool;                   (* mkdir and sqlite3.connect succeed *)
  source_db : gmap string dataset;           (* the relations of bi_schema *)
  to_sql_ends : string -> to_sql_outcome;    (* per target table *)
  elapsed : string -> Z;                     (* time.time() - start_time, per table *)
  now : string;                              (* datetime.now().isoformat() *)
  reports_writable : bool                    (* mkdir, open and json.dump succeed *)
}.

(** ** The target schema, as [create_target_schema] declares it *)

Definition audit_columns : list column :=
  [ Column "created_at" "TEXT DEFAULT CURRENT_TIMESTAMP";
    Column "updated_at" "TEXT DEFAULT CURRENT_TIMESTAMP" ].

Definition dim_date_columns : list column :=
  [ Column "dateid" "INTEGER PRIMARY KEY";
    Column "date" "TEXT NOT NULL";
    Column "year" "INTEGER NOT NULL";
    Column "quarter" "INTEGER NOT NULL";
    Column "quarter_name" "TEXT NOT NULL";
    Column "month" "INTEGER NOT NULL";
    Column "month_name" "TEXT NOT NULL";
    Column "day" "INTEGER NOT NULL";
    Column "weekday" "INTEGER NOT NULL";
    Column "weekday_name" "TEXT NOT NULL" ] ++ audit_columns.

Definition dim_customer_segment_columns : list column :=
  [ Column "segment_id" "INTEGER PRIMARY KEY";
    Column "city" "TEXT NOT NULL" ] ++ audit_columns.

Definition dim_product_columns : list column :=
  [ Column "product_id" "INTEGER PRIMARY KEY";
    Column "product_type" "TEXT NOT NULL" ] ++ audit_columns.

Definition fact_sales_columns : list column :=
  [ Column "sales_id" "TEXT PRIMARY KEY";
    Column "date_id" "INTEGER NOT NULL";
    Column "product_id" "INTEGER NOT NULL";
    Column "segment_id" "INTEGER NOT NULL";
    Column "price_per_unit" "REAL NOT NULL";
    Column "quantity_sold" "INTEGER NOT NULL";
    Column "total_amount" "REAL NOT NULL" ] ++ audit_columns.

Definition fact_sales_foreign_keys : list foreign_key :=
  [ ForeignKey "date_id" "dim_date" "dateid";
    ForeignKey "product_id" "dim_product" "product_id";
    ForeignKey "segment_id" "dim_customer_segment" "segment_id" ].

Definition etl_control_columns : list column :=
  [ Column "id" "INTEGER PRIMARY KEY AUTOINCREMENT";
    Column "table_name" "TEXT NOT NULL";
    Column "last_update" "TEXT NOT NULL";
    Column "records_processed" "INTEGER NOT NULL";
    Column "execution_time_seconds" "REAL NOT NULL";
    Column "status" "TEXT NOT NULL";
    Column "error_message" "TEXT" ].

(** A row of [etl_control] as the two INSERT statements of
    [load_table_data] fill it; the [id] SQLite assigns is the position of
    the row in the table and is left out. *)
Definition control_row (table_name last_update : string) (records_processed : nat)
    (execution_time_seconds : value) (st : status) (error_message : value) : row :=
  {[ "table_name" := VText table_name;
     "last_update" := VText last_update;
     "records_processed" := VInt (Z.of_nat records_processed);
     "execution_time_seconds" := execution_time_seconds;
     "status" := VText (status_text st);
     "error_message" := error_message ]}.

(** A float number of seconds, from microseconds. *)
Definition seconds (us : Z) : value := VReal us 1000000.

(** The four replicated tables, in the order both loops list them. *)
Definition tables : list string :=
  [ "dim_date"; "dim_customer_segment"; "dim_product"; "fact_sales" ].

(** [validation_results[table]] *)
Record table_check := TableCheck {
  vr_source : nat;
  vr_target : nat;
  vr_match : bool
}.

(** [generate_report], a function of the execution log and the clock. *)
Definition generate_report (timestamp : string) (execution_log : list log_entry) : report :=
  let total_records :=
    sum_list (records <$> filter (fun l => status_ l = SUCCESS) execution_log) in
  let total_time := foldr Z.add 0 (time <$> execution_log) in
  let success_count := length (filter (fun l => status_ l = SUCCESS) execution_log) in
  let error_count := length (filter (fun l => status_ l = ERROR) execution_log) in
  Report timestamp (length execution_log) success_count error_count
         total_records total_time execution_log.

(** ** The methods of [DatabaseReplicator] *)

Section Replicator.

Variable env : environment.

Definition connect_source : M bool :=
  try_except
    (if source_reachable env
     then modify (set_source_conn (Some (Handle false))) >>
          log LogSourceConnected >>
          ret true
     else raise "could not connect to server")
    (fun e => log (LogSourceConnectError e) >> ret false).

Definition connect_target : M bool :=
  try_except
    (if target_reachable env
     then modify (set_target_conn (Some (Connection None false))) >>
          log LogTargetConnected >>
          ret true
     else raise "unable to open database file")
    (fun e => log (LogTargetConnectError e) >> ret false).

Definition create_target_schema : M bool :=
  try_except
    (let! _ := target_cursor in
     execute_ddl (create_table_if_not_exists "dim_date" dim_date_columns []) >>
     execute_ddl (create_table_if_not_exists "dim_customer_segment"
                    dim_customer_segment_columns []) >>
     execute_ddl (create_table_if_not_exists "dim_product" dim_product_columns []) >>
     execute_ddl (create_table_if_not_exists "fact_sales" fact_sales_columns
                    fact_sales_foreign_keys) >>
     execute_ddl (create_table_if_not_exists "etl_control" etl_control_columns []) >>
     execute_ddl (create_index_if_not_exists "idx_sales_date" "fact_sales" "date_id") >>
     execute_ddl (create_index_if_not_exists "idx_sales_product" "fact_sales" "product_id") >>
     execute_ddl (create_index_if_not_exists "idx_sales_segment" "fact_sales" "segment_id") >>
     commit >>
     log LogSchemaCreated >>
     ret true)
    (fun e => log (LogSchemaError e) >> ret false).

(** [pd.read_sql_query("SELECT * FROM bi_schema.<table_name>", self.source_conn)] *)
Definition read_sql_query (table_name : string) : M dataset := fun s =>
  match source_conn s with
  | None => (s, Raise "'NoneType' object has no attribute 'cursor'")
  | Some h =>
      if src_closed h then (s, Raise "connection already closed")
      else match source_db env !! table_name with
           | None => (s, Raise ("relation bi_schema." +:+ table_name +:+ " does not exist"))
           | Some rows => (s, Ok rows)
           end
  end.

Definition extract_table_data (table_name : string) : M (option dataset) :=
  try_except
    (let! df := read_sql_query table_name in
     log (LogExtracted (length df) table_name) >>
     ret (Some df))
    (fun e => log (LogExtractError table_name e) >> ret None).

(** The table pandas creates when [if_exists='append'] finds none: one
    column per column of the frame. *)
Definition frame_table (df : dataset) : table :=
  Table ((fun c => Column c "") <$> (match df with r :: _ => (map_to_list r).*1 | [] => [] end))
        [] [].

(** [df.to_sql(table_name, self.target_conn, if_exists='append', index=False)] *)
Definition to_sql (df : dataset) (table_name : string) : M unit :=
  match to_sql_ends env table_name with
  | RaisedBeforeInsert e => raise e
  | RaisedInInsert e => rollback >> raise e
  | Inserted =>
      let! found := query (fun db => Ok (bool_decide (is_Some (db_tables db !! table_name)))) in
      (if found : bool then ret tt
       else execute_ddl (fun db => Ok (set_table table_name (frame_table df) db)) >> commit) >>
      match df with
      | [] => ret tt
      | _ => execute_dml (insert_rows table_name df) >> commit
      end
  end.

Definition load_table_data (df : dataset) (table_name : string) : M bool :=
  try_except
    (let! _ := target_cursor in
     execute_dml (delete_from table_name) >>
     to_sql df table_name >>
     let execution_time := elapsed env table_name in
     execute_dml (insert_rows "etl_control"
       [control_row table_name (now env) (length df) (seconds execution_time) SUCCESS VNull]) >>
     commit >>
     log (LogLoaded (length df) table_name execution_time) >>
     modify (fun s => set_execution_log
       (execution_log s ++ [LogEntry table_name (length df) execution_time SUCCESS None]) s) >>
     ret true)
    (fun e =>
     log (LogLoadError table_name e) >>
     let! _ := target_cursor in
     execute_dml (insert_rows "etl_control"
       [control_row table_name (now env) 0 (VInt 0) ERROR (VText e)]) >>
     commit >>
     modify (fun s => set_execution_log
       (execution_log s ++ [LogEntry table_name 0 0 ERROR (Some e)]) s) >>
     ret false).

Definition replicate_table (table_name : string) : M bool :=
  log (LogReplicating table_name) >>
  let! df := extract_table_data table_name in
  match df with
  | None => ret false
  | Some df => load_table_data df table_name
  end.

(** [source_cursor.execute("SELECT COUNT( * ) FROM bi_schema.<table>")] *)
Definition source_count (table_name : string) : M nat :=
  let! rows := read_sql_query table_name in
  ret (length rows).

(** The body of the loop [for table in tables] of [validate_replication];
    [validation_results] is the dictionary the loop fills. *)
Fixpoint validate_tables (ts : list string) (validation_results : gmap string table_check)
    : M (gmap string table_check) :=
  match ts with
  | [] => ret validation_results
  | table :: rest =>
      let! source_count := source_count table in
      let! target_count := query (select_count table) in
      let matches := bool_decide (source_count = target_count) in
      (if matches
       then log (LogCountOk table source_count)
       else log (LogCountMismatch table source_count target_count)) >>
      validate_tables rest
        (<[table := TableCheck source_count target_count matches]> validation_results)
  end.

(** [SELECT SUM(total_amount), COUNT( * ), AVG(total_amount) FROM fact_sales] *)
Definition select_metrics (db : database) : outcome (option Q * nat * option Q) :=
  match rows_of "fact_sales" db with
  | None => Raise "no such table: fact_sales"
  | Some rows =>
      Ok (sql_sum "total_amount" rows, length rows, sql_avg "total_amount" rows)
  end.

(** The f-string of the metrics line: formatting [None] with [,.2f] raises. *)
Definition log_metrics (metrics : option Q * nat * option Q) : M unit :=
  match metrics with
  | (Some revenue, sales, Some avg) => log (LogMetrics revenue sales avg)
  | _ => raise "unsupported format string passed to NoneType.__format__"
  end.

(** [all(result['match'] for result in validation_results.values())] *)
Definition all_match (validation_results : gmap string table_check) : bool :=
  bool_decide (map_Forall (fun _ r => vr_match r = true) validation_results).

Definition validate_replication : M bool :=
  try_except
    (log LogValidating >>
     let! validation_results := validate_tables tables ∅ in
     let! metrics := query select_metrics in
     log_metrics metrics >>
     ret (all_match validation_results))
    (fun e => log (LogValidationError e) >> ret false).

(** The loop [for table in tables_to_replicate] of [run_full_replication]. *)
Fixpoint replicate_tables (ts : list string) (success : bool) : M bool :=
  match ts with
  | [] => ret success
  | table :: rest =>
      let! ok := replicate_table table in
      replicate_tables rest (if ok then success else false)
  end.

(** [mkdir], [open] and [json.dump] of the report. *)
Definition save_report (r : report) : M unit :=
  if reports_writable env
  then modify (fun s => set_reports (reports s ++ [r]) s)
  else raise "Permission denied: reports".

(** The [finally] block: each connection is closed if it is set. *)
Definition close_connections : M unit :=
  close_source >> close_target.

Definition run_full_replication : M bool :=
  log LogRunStart >>
  try_finally
    (try_except
       (let! connected := connect_source in
        if negb connected then ret false else
        let! connected := connect_target in
        if negb connected then ret false else
        let! created := create_target_schema in
        if negb created then ret false else
        let! success := replicate_tables tables true in
        let! success := (if success : bool then validate_replication else ret false) in
        let! s := get in
        let report := generate_report (now env) (execution_log s) in
        save_report report >>
        (if success : bool then log LogRunOk else log LogRunWithErrors) >>
        log LogReportSaved >>
        ret success)
       (fun e => log (LogCriticalError e) >> ret false))
    close_connections.

End Replicator.

(** ** Observations used by the statements *)

(** The rows of [etl_control] in the committed target file. *)
Definition control_records (s : state) : dataset :=
  default [] (rows_of "etl_control" (target_db s)).

(** The rows of a table in the committed target file. *)
Definition committed_rows (name : string) (s : state) : option dataset :=
  rows_of name (target_db s).

Definition is_error_record_for (table_name : string) (r : row) : Prop :=
  r !! "table_name" = Some (VText table_name) /\ r !! "status" = Some (VText "ERROR").

(** * Reasoning about computations

    [wp m s Q]: running [m] from [s] ends in a state and an outcome that
    satisfy [Q].  One rule per construct of the monad and per statement of
    the connection lets a proof follow the source line by line. *)

Definition wp {A} (m : M A) (s : state) (Q : state -> outcome A -> Prop) : Prop :=
  Q (m s).1 (m s).2.

(** What a statement meets on the way to the database: no connection, a
    closed one, or an open one. *)
Definition on_connection {A} (s : state) (Q : state -> outcome A -> Prop)
    (k : connection -> Prop) : Prop :=
  match target_conn s with
  | None => Q s (Raise "'NoneType' object has no attribute 'cursor'")
  | Some c =>
      if closed c then Q s (Raise "Cannot operate on a closed database.") else k c
  end.


(** ** Vocabulary of the statements *)

(** The connection is open with no transaction pending, and the control
    table exists: the state [create_target_schema] leaves behind. *)
Definition ready (s : state) : Prop :=
  target_conn s = Some (Connection None false)
  /\ is_Some (db_tables (target_db s) !! "etl_control").

(** The two rows [load_table_data] can append to [etl_control]. *)
Definition success_record (env : environment) (df : dataset) (table_name : string) : row :=
  control_row table_name (now env) (length df)
    (seconds (elapsed env table_name)) SUCCESS VNull.

Definition error_record (env : environment) (table_name e : string) : row :=
  control_row table_name (now env) 0 (VInt 0) ERROR (VText e).

(** What a load that returns [True] leaves behind. *)
Definition loaded (env : environment) (df : dataset) (table_name : string)
    (s s' : state) : Prop :=
  committed_rows table_name s' = Some df
  /\ control_records s' = control_records s ++ [success_record env df table_name]
  /\ execution_log s'
     = execution_log s
       ++ [LogEntry table_name (length df) (elapsed env table_name) SUCCESS None]
  /\ logged s'
     = logged s ++ [LogLoaded (length df) table_name (elapsed env table_name)].

(** What a load that returns [False] leaves behind, next to the table. *)
Definition load_failed (env : environment) (table_name e : string)
    (s s' : state) : Prop :=
  control_records s' = control_records s ++ [error_record env table_name e]
  /\ execution_log s' = execution_log s ++ [LogEntry table_name 0 0 ERROR (Some e)]
  /\ logged s' = logged s ++ [LogLoadError table_name e].

(** The statements of [create_target_schema] in their order, as one
    function of the database the connection sees. *)
Definition and_then (r : outcome database) (stmt : database -> outcome database)
    : outcome database :=
  match r with
  | Ok db => stmt db
  | Raise e => Raise e
  end.

Definition schema_script (db : database) : outcome database :=
  and_then (and_then (and_then (and_then (and_then (and_then (and_then
    (create_table_if_not_exists "dim_date" dim_date_columns [] db)
    (create_table_if_not_exists "dim_customer_segment" dim_customer_segment_columns []))
    (create_table_if_not_exists "dim_product" dim_product_columns []))
    (create_table_if_not_exists "fact_sales" fact_sales_columns fact_sales_foreign_keys))
    (create_table_if_not_exists "etl_control" etl_control_columns []))
    (create_index_if_not_exists "idx_sales_date" "fact_sales" "date_id"))
    (create_index_if_not_exists "idx_sales_product" "fact_sales" "product_id"))
    (create_index_if_not_exists "idx_sales_segment" "fact_sales" "segment_id").

(** The five tables and the three indexes exist. *)
Definition provisioned (db : database) : Prop :=
  {[ "dim_date"; "dim_customer_segment"; "dim_product"; "fact_sales"; "etl_control" ]}
    ⊆ dom (db_tables db)
  /\ {[ "idx_sales_date"; "idx_sales_product"; "idx_sales_segment" ]}
    ⊆ dom (db_indexes db).

(** The schema of a target provisioned from nothing. *)
Definition provisioned_schema : database :=
  Database
    {[ "dim_date" := Table dim_date_columns [] [];
       "dim_customer_segment" := Table dim_customer_segment_columns [] [];
       "dim_product" := Table dim_product_columns [] [];
       "fact_sales" := Table fact_sales_columns fact_sales_foreign_keys [];
       "etl_control" := Table etl_control_columns [] [] ]}
    {[ "idx_sales_date" := Index "fact_sales" "date_id";
       "idx_sales_product" := Index "fact_sales" "product_id";
       "idx_sales_segment" := Index "fact_sales" "segment_id" ]}.

(** A replicator whose two connections have just been opened. *)
Definition connected (db : database) : state :=
  State (Some (Handle false)) (Some (Connection None false)) [] db [] [].

(** ** Reading the log *)




#[global] Instance Q_eq_dec : EqDecision Q.
Proof. solve_decision. Defined.

#[global] Instance log_line_eq_dec : EqDecision log_line.
Proof. solve_decision. Defined.


(** The lines [validate_replication] writes after its first one. *)
Definition validation_line (l : log_line) : bool :=
  match l with
  | LogCountOk _ _ | LogCountMismatch _ _ _ | LogMetrics _ _ _ | LogValidationError _ => true
  | _ => false
  end.

(** The lines one pass of the replication loop writes for a table, with
    the value [replicate_table] returns. *)
Inductive attempt (t : string) : bool -> list log_line -> Prop :=
  | attempt_extract_error e :
      attempt t false [LogReplicating t; LogExtractError t e]
  | attempt_load_error n e :
      attempt t false [LogReplicating t; LogExtracted n t; LogLoadError t e]
  | attempt_loaded n us :
      attempt t true [LogReplicating t; LogExtracted n t; LogLoaded n t us].

Inductive attempts : list string -> bool -> list log_line -> Prop :=
  | attempts_nil : attempts [] true []
  | attempts_cons t ts b bs l ls :
      attempt t b l -> attempts ts bs ls -> attempts (t :: ts) (b && bs) (l ++ ls).

(** What a run that reached the replication loop leaves behind: the lines
    of the four attempts [ls], of the validation [vl] and of the report
    [tail]; [b] is the verdict before the report is written. *)
Definition run_outcome (env : environment) (s s' : state) (r : outcome bool) : Prop :=
  exists bs ls vl (b : bool) tail,
    attempts tables bs ls
    /\ (forall t, t ∈ tables -> source_db env !! t = None -> bs = false)
    /\ logged s'
       = logged s
         ++ [LogRunStart; LogSourceConnected; LogTargetConnected; LogSchemaCreated]
         ++ ls ++ vl ++ tail
    /\ (if bs
        then exists vl', vl = LogValidating :: vl' /\ forallb validation_line vl' = true
        else vl = [] /\ b = false)
    /\ (if reports_writable env
        then r = Ok b
             /\ reports s' = reports s ++ [generate_report (now env) (execution_log s')]
             /\ tail = [if b then LogRunOk else LogRunWithErrors; LogReportSaved]
        else r = Ok false /\ reports s' = reports s
             /\ tail = [LogCriticalError "Permission denied: reports"])
    /\ source_conn s' = Some (Handle true)
    /\ target_conn s' = Some (Connection None true).

(** ** The orphan counts of the specification

    Written after the specification's words (left join, keep the rows whose
    dimension side is NULL), to be compared with what
    [validate_replication] computes: fact rows whose key finds no row of the
    dimension. *)
Definition joins (a b : option value) : bool :=
  match a, b with
  | Some x, Some y => bool_decide (x ≠ VNull) && bool_decide (x = y)
  | _, _ => false
  end.

Definition spec_orphan_count (fk_col dim dim_key : string) (db : database) : nat :=
  let facts := default [] (rows_of "fact_sales" db) in
  let dims := default [] (rows_of dim db) in
  length (List.filter
    (fun f : row => negb (existsb (fun d : row => joins (f !! fk_col) (d !! dim_key)) dims))
    facts).

Definition spec_sales_without_date : database -> nat :=
  spec_orphan_count "date_id" "dim_date" "dateid".
Definition spec_sales_without_segment : database -> nat :=
  spec_orphan_count "segment_id" "dim_customer_segment" "segment_id".


(** ** Sample data *)

Definition product_a : row := {[ "product_id" := VInt 1; "product_type" := VText "A" ]}.
Definition product_b : row := {[ "product_id" := VInt 2; "product_type" := VText "B" ]}.
Definition date_1 : row := {[ "dateid" := VInt 20250101; "date" := VText "2025-01-01" ]}.
Definition segment_1 : row := {[ "segment_id" := VInt 1; "city" := VText "Lima" ]}.

Definition sale (sales_id : string) (product_id : Z) : row :=
  {[ "sales_id" := VText sales_id;
     "date_id" := VInt 20250101;
     "product_id" := VInt product_id;
     "segment_id" := VInt 1;
     "price_per_unit" := VReal 5 2;
     "quantity_sold" := VInt 2;
     "total_amount" := VReal 5 1 ]}.

Definition sample_source : gmap string dataset :=
  {[ "dim_date" := [date_1];
     "dim_customer_segment" := [segment_1];
     "dim_product" := [product_a; product_b];
     "fact_sales" := [sale "S1" 1] ]}.



Definition sample_env (source : gmap string dataset) (ends : to_sql_outcome) : environment :=
  Environment true true source (fun _ => ends) (fun _ => 1500) "2025-01-01T00:00:00" true.

Definition offline_env : environment :=
  Environment false true sample_source (fun _ => Inserted) (fun _ => 1500)
    "2025-01-01T00:00:00" true.

Definition no_target_env : environment :=
  Environment true false sample_source (fun _ => Inserted) (fun _ => 1500)
    "2025-01-01T00:00:00" true.

(** A provisioned target that already holds two products. *)
Definition warehouse : database :=
  set_table "dim_product" (Table dim_product_columns [] [product_a; product_b])
    provisioned_schema.






(** The tables whose source relation exists, among [ts]. *)
Definition readable (env : environment) (ts : list string) : list string :=
  filter (fun t => is_Some (source_db env !! t)) ts.

(** What a run that reached the replication loop leaves in the target and
    in the two ledgers (the control table and the execution log); [b] tells
    whether the four loads succeeded, [final] is the schema the run found or
    created. *)
Definition run_ledgers (env : environment) (final : database) (s s' : state)
    (r : outcome bool) : Prop :=
  exists (b : bool) entries records,
    (r = Ok true -> b = true)
    /\ (b = true -> forall t, t ∈ tables ->
          is_Some (source_db env !! t)
          /\ committed_rows t s' = source_db env !! t)
    /\ (forall other, other ∉ tables -> other ≠ "etl_control" ->
          db_tables (target_db s') !! other = db_tables final !! other)
    /\ execution_log s' = execution_log s ++ entries
    /\ control_records s' = control_records s ++ records
    /\ table_ <$> entries = readable env tables
    /\ omap (fun r : row => r !! "table_name") records = VText <$> readable env tables
    /\ (b = true -> Forall (fun e => status_ e = SUCCESS) entries)
    /\ (reports_writable env = true ->
        reports s' = reports s ++ [generate_report (now env) (execution_log s')])
    /\ (reports_writable env = false -> r = Ok false /\ reports s' = reports s).

(** Can [self.source_conn] be read from? *)
Definition source_open (s : state) : bool :=
  match source_conn s with
  | Some h => negb (src_closed h)
  | None => false
  end.

(** A target file holding a [fact_sales] table of another shape. *)
Definition foreign_target : database :=
  Database {[ "fact_sales" := Table [Column "id" "INTEGER"] [] [] ]} ∅.

(** * Rules of the calculus *)

Lemma wp_run {A} (m : M A) s s' r Q : m s = (s', r) -> wp m s Q -> Q s' r.
Proof. unfold wp. by intros ->. Qed.

Lemma wp_intro {A} (m : M A) s : wp m s (fun s' r => m s = (s', r)).
Proof. unfold wp. by destruct (m s). Qed.

Lemma wp_mono {A} (m : M A) s (Q Q' : state -> outcome A -> Prop) :
  (forall s' r, Q s' r -> Q' s' r) -> wp m s Q -> wp m s Q'.
Proof. unfold wp. auto. Qed.

Lemma wp_ret {A} (a : A) s Q : Q s (Ok a) -> wp (ret a) s Q.
Proof. done. Qed.

Lemma wp_raise {A} e s (Q : state -> outcome A -> Prop) :
  Q s (Raise e) -> wp (raise e) s Q.
Proof. done. Qed.

Lemma wp_bind {A B} (m : M A) (k : A -> M B) s Q :
  wp m s (fun s1 r =>
    match r with Ok a => wp (k a) s1 Q | Raise e => Q s1 (Raise e) end) ->
  wp (bind m k) s Q.
Proof. unfold wp, bind. by destruct (m s) as [s1 [a|e]]. Qed.

Lemma wp_try_except {A} (m : M A) h s Q :
  wp m s (fun s1 r =>
    match r with Ok a => Q s1 (Ok a) | Raise e => wp (h e) s1 Q end) ->
  wp (try_except m h) s Q.
Proof. unfold wp, try_except. by destruct (m s) as [s1 [a|e]]. Qed.

Lemma wp_try_finally {A} (m : M A) c s Q :
  wp m s (fun s1 r => wp c s1 (fun s2 u =>
    match u with Ok _ => Q s2 r | Raise e => Q s2 (Raise e) end)) ->
  wp (try_finally m c) s Q.
Proof.
  unfold wp, try_finally. destruct (m s) as [s1 r]; simpl.
  by destruct (c s1) as [s2 [u|e]].
Qed.

Lemma wp_modify f s Q : Q (f s) (Ok tt) -> wp (modify f) s Q.
Proof. done. Qed.

Lemma wp_log l s Q : Q (set_logged (logged s ++ [l]) s) (Ok tt) -> wp (log l) s Q.
Proof. done. Qed.

Lemma wp_get s Q : Q s (Ok s) -> wp get s Q.
Proof. done. Qed.

Lemma wp_target_cursor s Q :
  on_connection s Q (fun c => Q s (Ok c)) -> wp target_cursor s Q.
Proof.
  unfold wp, on_connection, target_cursor.
  by destruct (target_conn s) as [[w []]|].
Qed.

Lemma wp_execute_dml stmt s Q :
  on_connection s Q (fun c =>
    match stmt (view c s) with
    | Ok db => Q (set_target_conn (Some (Connection (Some db) false)) s) (Ok tt)
    | Raise e => Q s (Raise e)
    end) ->
  wp (execute_dml stmt) s Q.
Proof.
  unfold wp, on_connection, execute_dml, bind, target_cursor.
  destruct (target_conn s) as [[w []]|]; simpl; try done.
  by destruct (stmt _).
Qed.

Lemma wp_execute_ddl stmt s Q :
  on_connection s Q (fun c =>
    match stmt (view c s) with
    | Ok db =>
        match txn c with
        | Some _ => Q (set_target_conn (Some (Connection (Some db) false)) s) (Ok tt)
        | None => Q (set_target_db db s) (Ok tt)
        end
    | Raise e => Q s (Raise e)
    end) ->
  wp (execute_ddl stmt) s Q.
Proof.
  unfold wp, on_connection, execute_ddl, bind, target_cursor.
  destruct (target_conn s) as [[w []]|]; simpl; try done.
  destruct (stmt _); try done. by destruct w.
Qed.

Lemma wp_query {A} (q : database -> outcome A) s Q :
  on_connection s Q (fun c => Q s (q (view c s))) -> wp (query q) s Q.
Proof.
  unfold wp, on_connection, query, bind, target_cursor.
  by destruct (target_conn s) as [[w []]|].
Qed.

Lemma wp_commit s Q :
  on_connection s Q (fun c =>
    Q (set_target_conn (Some (Connection None false)) (set_target_db (view c s) s))
      (Ok tt)) ->
  wp commit s Q.
Proof.
  unfold wp, on_connection, commit, bind, target_cursor.
  by destruct (target_conn s) as [[w []]|].
Qed.

Lemma wp_rollback s Q :
  on_connection s Q (fun c =>
    Q (set_target_conn (Some (Connection None false)) s) (Ok tt)) ->
  wp rollback s Q.
Proof.
  unfold wp, on_connection, rollback, bind, target_cursor.
  by destruct (target_conn s) as [[w []]|].
Qed.

Ltac wp_simpl :=
  unfold on_connection, view, set_target_conn, set_source_conn, set_execution_log,
    set_target_db, set_reports, set_logged;
  cbn [target_conn source_conn execution_log target_db reports logged
       closed txn src_closed default from_option id negb].

Ltac wp_step :=
  lazymatch goal with
  | |- wp (bind _ _) _ _ => apply wp_bind
  | |- wp (ret _) _ _ => apply wp_ret
  | |- wp (raise _) _ _ => apply wp_raise
  | |- wp (try_except _ _) _ _ => apply wp_try_except
  | |- wp (try_finally _ _) _ _ => apply wp_try_finally
  | |- wp (modify _) _ _ => apply wp_modify
  | |- wp (log _) _ _ => apply wp_log
  | |- wp get _ _ => apply wp_get
  | |- wp target_cursor _ _ => apply wp_target_cursor
  | |- wp (execute_dml _) _ _ => apply wp_execute_dml
  | |- wp (execute_ddl _) _ _ => apply wp_execute_ddl
  | |- wp (query _) _ _ => apply wp_query
  | |- wp commit _ _ => apply wp_commit
  | |- wp rollback _ _ => apply wp_rollback
  end; wp_simpl.

Ltac wp_steps := repeat wp_step.

(** ** The statements, seen through [rows_of] *)

Lemma lookup_set_table name t db m :
  db_tables (set_table name t db) !! m
  = if decide (name = m) then Some t else db_tables db !! m.
Proof. unfold set_table; simpl. apply lookup_insert. Qed.

Lemma rows_of_set_table name t db m :
  rows_of m (set_table name t db)
  = if decide (name = m) then Some (tbl_rows t) else rows_of m db.
Proof. unfold rows_of. rewrite lookup_set_table. by case_decide. Qed.

Lemma rows_of_is_Some name db :
  is_Some (rows_of name db) <-> is_Some (db_tables db !! name).
Proof. unfold rows_of. by rewrite fmap_is_Some. Qed.

Lemma delete_from_Ok name db db' :
  delete_from name db = Ok db' ->
  exists t, db_tables db !! name = Some t /\ db' = set_table name (with_rows t []) db.
Proof. unfold delete_from. destruct (db_tables db !! name); naive_solver. Qed.

Lemma insert_rows_Ok name rows db db' :
  insert_rows name rows db = Ok db' ->
  exists t, db_tables db !! name = Some t
            /\ db' = set_table name (with_rows t (tbl_rows t ++ rows)) db.
Proof. unfold insert_rows. destruct (db_tables db !! name); naive_solver. Qed.

Lemma insert_rows_exists name rows db :
  is_Some (db_tables db !! name) -> exists db', insert_rows name rows db = Ok db'.
Proof. intros [t Ht]. unfold insert_rows. rewrite Ht. eauto. Qed.

Ltac wp_case :=
  lazymatch goal with
  | |- match ?x with _ => _ end => destruct x eqn:?
  | |- wp (match ?x with _ => _ end) _ _ => destruct x eqn:?
  end; wp_simpl.

Ltac wp_go := repeat (wp_step || wp_case).

Ltac db_simpl :=
  rewrite ?rows_of_set_table, ?lookup_set_table;
  repeat first [ rewrite decide_True by done | rewrite decide_False by done ].

(** * Loading one table *)

Section Load.

Variable env : environment.

Lemma load_replaces_wp df table_name s :
  table_name ≠ "etl_control" ->
  wp (load_table_data env df table_name) s (fun s' r =>
    r = Ok true ->
    committed_rows table_name s' = Some df
    /\ target_conn s' = Some (Connection None false)).
Proof.
  intros Hne. unfold load_table_data.
  destruct s as [sc [[w []]|] el db rp lg]; wp_steps; try done.
  generalize (default db w); intros v.
  destruct (delete_from _ _) as [db0|e] eqn:Hdel; [|by wp_go].
  apply delete_from_Ok in Hdel as (t & Ht & ->).
  wp_step. unfold to_sql. 
  destruct (to_sql_ends env table_name); [|by wp_go..].
  wp_steps. rewrite lookup_set_table, decide_True by done.
  rewrite bool_decide_true by eauto. wp_steps.
  destruct df as [|r0 df].
  - wp_steps. unfold insert_rows. rewrite lookup_set_table, decide_False by done.
    destruct (db_tables v !! "etl_control") as [ct|] eqn:Hct; [|by wp_go].
    wp_steps. intros _. split; [|done]. unfold committed_rows; simpl.
    rewrite !rows_of_set_table. rewrite decide_False, decide_True by done. done.
  - wp_steps. unfold insert_rows at 1. rewrite lookup_set_table, decide_True by done.
    wp_steps. unfold insert_rows. rewrite !lookup_set_table.
    rewrite decide_False, decide_False by done.
    destruct (db_tables v !! "etl_control") as [ct|] eqn:Hct; [|by wp_go].
    wp_steps. intros _. split; [|done]. unfold committed_rows; simpl.
    rewrite !rows_of_set_table. rewrite decide_False, decide_True by done. done.
Qed.

(** The handler of [load_table_data], from a state it can be entered in. *)
Lemma load_handler_wp table_name e sc w el db rp lg (Q : state -> outcome bool -> Prop) :
  match db_tables (default db w) !! "etl_control" with
  | None => Q (State sc (Some (Connection w false)) el db rp
                 (lg ++ [LogLoadError table_name e]))
              (Raise "no such table: etl_control")
  | Some ct =>
      Q (State sc (Some (Connection None false))
           (el ++ [LogEntry table_name 0 0 ERROR (Some e)])
           (set_table "etl_control"
              (with_rows ct (tbl_rows ct ++ [error_record env table_name e]))
              (default db w))
           rp (lg ++ [LogLoadError table_name e]))
        (Ok false)
  end ->
  wp (log (LogLoadError table_name e) >>
      let! _ := target_cursor in
      execute_dml (insert_rows "etl_control"
        [control_row table_name (now env) 0 (VInt 0) ERROR (VText e)]) >>
      commit >>
      modify (fun s => set_execution_log
        (execution_log s ++ [LogEntry table_name 0 0 ERROR (Some e)]) s) >>
      ret false)
     (State sc (Some (Connection w false)) el db rp lg) Q.
Proof.
  intros H. wp_steps. unfold insert_rows.
  destruct (db_tables (default db w) !! "etl_control") as [ct|]; wp_steps; done.
Qed.

Ltac load_steps := repeat first [ apply load_handler_wp; wp_simpl | wp_step ].

Lemma load_table_data_spec df table_name s :
  target_conn s = Some (Connection None false) ->
  table_name ≠ "etl_control" ->
  wp (load_table_data env df table_name) s (fun s' r =>
    match db_tables (target_db s) !! "etl_control" with
    | None => exists e, r = Raise e
    | Some _ =>
        ready s' /\ source_conn s' = source_conn s /\ reports s' = reports s
        /\ match db_tables (target_db s) !! table_name, to_sql_ends env table_name with
           | Some _, Inserted => r = Ok true /\ loaded env df table_name s s'
           | Some _, RaisedBeforeInsert e =>
               r = Ok false /\ load_failed env table_name e s s'
               /\ committed_rows table_name s' = Some []
           | Some _, RaisedInInsert e =>
               r = Ok false /\ load_failed env table_name e s s'
               /\ committed_rows table_name s' = committed_rows table_name s
           | None, _ =>
               r = Ok false
               /\ load_failed env table_name ("no such table: " +:+ table_name) s s'
               /\ committed_rows table_name s' = None
           end
    end).
Proof.
  intros Hc Hne. destruct s as [sc tc el db rp lg]; simpl in Hc; subst tc.
  assert (Hfail : forall ct e v (rows : option dataset),
    db_tables db !! "etl_control" = Some ct ->
    rows_of table_name v = rows ->
    db_tables v !! "etl_control" = Some ct ->
    let s' := State sc (Some (Connection None false))
                (el ++ [LogEntry table_name 0 0 ERROR (Some e)])
                (set_table "etl_control"
                   (with_rows ct (tbl_rows ct ++ [error_record env table_name e])) v)
                rp (lg ++ [LogLoadError table_name e]) in
    ready s' /\ sc = sc /\ rp = rp /\ Ok false = Ok false
    /\ load_failed env table_name e (State sc (Some (Connection None false)) el db rp lg) s'
    /\ committed_rows table_name s' = rows).
  { intros ct e v rows Hct Hrows Hv.
    unfold ready, load_failed, control_records, committed_rows; wp_simpl.
    db_simpl. replace (rows_of "etl_control" db) with (Some (tbl_rows ct))
      by (unfold rows_of; by rewrite Hct).
    simpl. eauto 10. }
  unfold load_table_data. wp_steps.
  unfold delete_from at 1.
  destruct (db_tables db !! table_name) as [t|] eqn:Ht.
  2:{ load_steps.
      destruct (db_tables db !! "etl_control") as [ct|] eqn:Hct; [|by eauto].
      apply Hfail; try done. unfold rows_of. by rewrite Ht. }
  wp_step. unfold to_sql. destruct (to_sql_ends env table_name) as [|e|e].
  - wp_steps. db_simpl. rewrite bool_decide_true by eauto. wp_steps.
    destruct df as [|r0 df]; wp_steps.
    + unfold insert_rows. db_simpl.
      destruct (db_tables db !! "etl_control") as [ct|] eqn:Hct.
      * wp_steps. unfold ready, loaded, control_records, committed_rows; wp_simpl.
        db_simpl. unfold rows_of. rewrite Hct. simpl. eauto 10.
      * load_steps. db_simpl. rewrite Hct. eauto.
    + unfold insert_rows at 1. db_simpl. wp_steps.
      unfold insert_rows. db_simpl.
      destruct (db_tables db !! "etl_control") as [ct|] eqn:Hct.
      * wp_steps. unfold ready, loaded, control_records, committed_rows; wp_simpl.
        db_simpl. unfold rows_of. rewrite Hct. simpl. eauto 10.
      * load_steps. db_simpl. rewrite Hct. eauto.
  - load_steps. db_simpl.
    destruct (db_tables db !! "etl_control") as [ct|] eqn:Hct; [|by eauto].
    apply Hfail; try done; by db_simpl.
  - load_steps.
    destruct (db_tables db !! "etl_control") as [ct|] eqn:Hct; [|by eauto].
    by apply Hfail.
Qed.

End Load.

(** * Provisioning the schema *)

Lemma schema_script_empty : schema_script empty_database = Ok provisioned_schema.
Proof. vm_compute. reflexivity. Qed.

Lemma create_table_grows name cols fks db db' :
  create_table_if_not_exists name cols fks db = Ok db' ->
  name ∈ dom (db_tables db')
  /\ dom (db_tables db) ⊆ dom (db_tables db')
  /\ dom (db_indexes db) ⊆ dom (db_indexes db').
Proof.
  unfold create_table_if_not_exists.
  destruct (db_tables db !! name) as [t|] eqn:Ht; intros [= <-]; simpl.
  - apply elem_of_dom_2 in Ht. set_solver.
  - rewrite dom_insert_L. set_solver.
Qed.

Lemma create_index_grows idx tbl col db db' :
  create_index_if_not_exists idx tbl col db = Ok db' ->
  idx ∈ dom (db_indexes db')
  /\ dom (db_tables db) ⊆ dom (db_tables db')
  /\ dom (db_indexes db) ⊆ dom (db_indexes db').
Proof.
  unfold create_index_if_not_exists.
  destruct (db_indexes db !! idx) as [i|] eqn:Hi.
  - intros [= <-]. apply elem_of_dom_2 in Hi. set_solver.
  - destruct (db_tables db !! tbl) as [t|]; [|done].
    destruct (has_column col t); intros [= <-]; simpl.
    rewrite dom_insert_L. set_solver.
Qed.

Lemma create_table_present name cols fks db :
  name ∈ dom (db_tables db) -> create_table_if_not_exists name cols fks db = Ok db.
Proof.
  intros [t Ht]%elem_of_dom. unfold create_table_if_not_exists. by rewrite Ht.
Qed.

Lemma create_index_present idx tbl col db :
  idx ∈ dom (db_indexes db) -> create_index_if_not_exists idx tbl col db = Ok db.
Proof.
  intros [i Hi]%elem_of_dom. unfold create_index_if_not_exists. by rewrite Hi.
Qed.

Lemma and_then_Ok r stmt db' :
  and_then r stmt = Ok db' -> exists db, r = Ok db /\ stmt db = Ok db'.
Proof. destruct r; naive_solver. Qed.

Lemma schema_script_provisions db final :
  schema_script db = Ok final -> provisioned final.
Proof.
  unfold schema_script. intros H.
  repeat (apply and_then_Ok in H as (? & H & ?)).
  repeat match goal with
  | H : create_table_if_not_exists _ _ _ _ = Ok _ |- _ =>
      apply create_table_grows in H as (? & ? & ?)
  | H : create_index_if_not_exists _ _ _ _ = Ok _ |- _ =>
      apply create_index_grows in H as (? & ? & ?)
  end.
  unfold provisioned.
  split; repeat (apply union_subseteq; split); apply singleton_subseteq_l;
    repeat first
      [ assumption
      | match goal with H : ?A ⊆ ?B |- _ ∈ ?B => apply H end ].
Qed.

Lemma schema_script_noop db : provisioned db -> schema_script db = Ok db.
Proof.
  intros [Ht Hi]. unfold schema_script.
  repeat (rewrite create_table_present by set_solver; cbn [and_then]).
  repeat (rewrite create_index_present by set_solver; cbn [and_then]).
  done.
Qed.

Lemma schema_script_idempotent db final :
  schema_script db = Ok final -> schema_script final = Ok final.
Proof. intros H. by apply schema_script_noop, (schema_script_provisions db). Qed.

(** [create_target_schema] on an open connection is [schema_script] on what
    the connection sees, followed by the commit. *)
Lemma create_target_schema_wp sc w el db rp lg :
  wp create_target_schema (State sc (Some (Connection w false)) el db rp lg)
    (fun s' r =>
      match schema_script (default db w) with
      | Ok final =>
          r = Ok true
          /\ s' = State sc (Some (Connection None false)) el final rp
                    (lg ++ [LogSchemaCreated])
      | Raise e =>
          r = Ok false
          /\ source_conn s' = sc /\ execution_log s' = el /\ reports s' = rp
          /\ logged s' = lg ++ [LogSchemaError e]
          /\ exists w', target_conn s' = Some (Connection w' false)
      end).
Proof.
  unfold create_target_schema, schema_script.
  destruct w as [v|]; wp_simpl;
    repeat first
      [ wp_step
      | lazymatch goal with
        | |- match ?x with _ => _ end => destruct x as [?|?] eqn:?
        end; cbn [and_then]; wp_simpl; [|wp_steps; by eauto 10] ];
    done.
Qed.

(** * Replicating the tables *)

Section Run.

Variable env : environment.

Lemma wp_read_sql_query table_name s Q :
  match source_conn s with
  | None => Q s (Raise "'NoneType' object has no attribute 'cursor'")
  | Some h =>
      if src_closed h then Q s (Raise "connection already closed")
      else match source_db env !! table_name with
           | None =>
               Q s (Raise ("relation bi_schema." +:+ table_name +:+ " does not exist"))
           | Some rows => Q s (Ok rows)
           end
  end ->
  wp (read_sql_query env table_name) s Q.
Proof.
  unfold wp, read_sql_query. destruct (source_conn s) as [[[]]|]; try done.
  by destruct (source_db env !! table_name).
Qed.

(** [extract_table_data] only writes to the log; it returns [None] exactly
    when the read raises. *)
Lemma extract_table_data_wp table_name s (Q : state -> outcome (option dataset) -> Prop) :
  (forall df, source_db env !! table_name = Some df ->
     Q (set_logged (logged s ++ [LogExtracted (length df) table_name]) s) (Ok (Some df))) ->
  (forall e, Q (set_logged (logged s ++ [LogExtractError table_name e]) s) (Ok None)) ->
  wp (extract_table_data env table_name) s Q.
Proof.
  intros Hok Herr. unfold extract_table_data.
  wp_steps. apply wp_read_sql_query.
  destruct (source_conn s) as [[[]]|]; try (wp_steps; apply Herr).
  destruct (source_db env !! table_name) as [df|] eqn:Hdf; wp_steps.
  - by apply Hok.
  - apply Herr.
Qed.

Lemma replicate_table_spec table_name s :
  ready s -> table_name ≠ "etl_control" ->
  wp (replicate_table env table_name) s (fun s' r =>
    exists b l, r = Ok b /\ attempt table_name b l
      /\ logged s' = logged s ++ l
      /\ ready s' /\ source_conn s' = source_conn s /\ reports s' = reports s
      /\ (source_db env !! table_name = None -> b = false)).
Proof.
  intros [Hc [ct Hct]] Hne. unfold replicate_table. wp_steps.
  apply extract_table_data_wp; wp_simpl.
  2:{ intros e. wp_steps.
      exists false, [LogReplicating table_name; LogExtractError table_name e].
      unfold ready; wp_simpl. rewrite <- app_assoc.
      split_and!; eauto using attempt. }
  intros df Hdf.
  eapply wp_mono; [|apply load_table_data_spec; wp_simpl; done].
  wp_simpl. intros s' r. rewrite Hct. intros (Hready & Hsc & Hrp & H).
  destruct (db_tables (target_db s) !! table_name), (to_sql_ends env table_name);
    destruct H as (-> & H).
  1:{ destruct H as (_ & _ & _ & Hlog); simpl in Hlog.
      eexists true, _.
      split_and!; [done|apply (attempt_loaded _ (length df))| |try done; congruence..].
      rewrite Hlog, <- !app_assoc. done. }
  all: destruct H as ((_ & _ & Hlog) & _); simpl in Hlog.
  all: eexists false, _;
    split_and!; [done|apply (attempt_load_error _ (length df))| |done..].
  all: rewrite Hlog, <- !app_assoc; done.
Qed.

(** The loop over the tables never stops early. *)
Lemma replicate_tables_spec ts : forall success s,
  ready s -> "etl_control" ∉ ts ->
  wp (replicate_tables env ts success) s (fun s' r =>
    exists bs ls, r = Ok (bs && success) /\ attempts ts bs ls
      /\ logged s' = logged s ++ ls
      /\ ready s' /\ source_conn s' = source_conn s /\ reports s' = reports s
      /\ (forall t, t ∈ ts -> source_db env !! t = None -> bs = false)).
Proof.
  induction ts as [|t ts IH]; intros success s Hready Hts; simpl.
  - wp_steps. exists true, []. rewrite app_nil_r.
    split_and!; eauto using attempts. by intros t ?%elem_of_nil.
  - apply not_elem_of_cons in Hts as [Ht Hts].
    wp_step. eapply wp_mono; [|by apply replicate_table_spec].
    intros s1 r (b & l & -> & Hl & Hlog1 & Hready1 & Hsc1 & Hrp1 & Hb).
    eapply wp_mono; [|by apply IH].
    intros s2 r (bs & ls & -> & Hls & Hlog2 & Hready2 & Hsc2 & Hrp2 & Hbs).
    exists (b && bs), (l ++ ls). split_and!; try congruence.
    + by destruct b, bs, success.
    + by constructor.
    + rewrite Hlog2, Hlog1. by rewrite app_assoc.
    + intros t' [->|Hin]%elem_of_cons Hnone.
      * by rewrite Hb.
      * rewrite (Hbs t') by done. by destruct b.
Qed.

(** ** Validation only writes to the log *)

Lemma validate_tables_logs ts : forall results s,
  wp (validate_tables env ts results) s (fun s' r =>
    exists vl, s' = set_logged (logged s ++ vl) s /\ forallb validation_line vl = true).
Proof.
  induction ts as [|t ts IH]; intros results s; simpl.
  - wp_steps. exists []. rewrite app_nil_r. by destruct s.
  - destruct s as [sc tc el db rp lg].
    assert (Hnil : exists vl : list log_line,
      State sc tc el db rp lg = State sc tc el db rp (lg ++ vl)
      /\ forallb validation_line vl = true).
    { exists []. by rewrite app_nil_r. }
    unfold source_count. wp_steps. apply wp_read_sql_query; wp_simpl.
    destruct sc as [[[]]|]; wp_simpl; try done.
    destruct (source_db env !! t) as [rows|]; [|done].
    wp_steps.
    destruct tc as [[w []]|]; wp_simpl; try done.
    destruct (select_count t (default db w)) as [n|e]; [|done].
    wp_step.
    assert (Hstep : forall l, validation_line l = true ->
      wp (validate_tables env ts
            (<[t:=TableCheck (length rows) n (bool_decide (length rows = n))]> results))
         (State (Some (Handle false)) (Some (Connection w false)) el db rp (lg ++ [l]))
         (fun s' r => exists vl,
            s' = State (Some (Handle false)) (Some (Connection w false)) el db rp (lg ++ vl)
            /\ forallb validation_line vl = true)).
    { intros l Hl. eapply wp_mono; [|apply IH]. wp_simpl.
      intros s' r (vl & -> & Hvl). exists (l :: vl).
      rewrite <- app_assoc. simpl. by rewrite Hl, Hvl. }
    case_bool_decide; wp_steps; by apply Hstep.
Qed.

Lemma validate_replication_logs s :
  wp (validate_replication env) s (fun s' r =>
    exists b vl, r = Ok b
      /\ s' = set_logged (logged s ++ LogValidating :: vl) s
      /\ forallb validation_line vl = true).
Proof.
  unfold validate_replication. destruct s as [sc tc el db rp lg].
  wp_steps. eapply wp_mono; [|apply validate_tables_logs]. wp_simpl.
  intros s' r (vl & -> & Hvl).
  assert (Herr : forall e, exists b' vl',
    @Ok bool false = Ok b'
    /\ State sc tc el db rp (((lg ++ [LogValidating]) ++ vl) ++ [LogValidationError e])
       = State sc tc el db rp (lg ++ LogValidating :: vl')
    /\ forallb validation_line vl' = true).
  { intros e. exists false, (vl ++ [LogValidationError e]).
    rewrite <- !app_assoc, forallb_app, Hvl. done. }
  destruct r as [results|e]; [|wp_steps; apply Herr].
  wp_steps. destruct tc as [[w []]|]; wp_simpl; try (wp_steps; apply Herr).
  destruct (select_metrics _) as [[[[revenue|] sales] [avg|]]|e];
    unfold log_metrics; cbn beta iota; wp_steps; try apply Herr.
  exists (all_match results), (vl ++ [LogMetrics revenue sales avg]).
  rewrite <- !app_assoc, forallb_app, Hvl. done.
Qed.

(** ** What the lines of the loop say *)





(** ** The shape of a run that reaches the replication loop *)

Lemma tables_not_control : "etl_control" ∉ tables.
Proof. unfold tables. set_solver. Qed.

Lemma provisioned_ready sc el db rp lg :
  provisioned db -> ready (State sc (Some (Connection None false)) el db rp lg).
Proof.
  intros [Ht _]. split; [done|]. simpl. apply elem_of_dom. set_solver.
Qed.

Lemma run_shape s final :
  source_reachable env = true ->
  target_reachable env = true ->
  schema_script (target_db s) = Ok final ->
  wp (run_full_replication env) s (run_outcome env s).
Proof.
  intros Hsrc Htgt Hscript. unfold run_full_replication, connect_source, connect_target.
  rewrite Hsrc, Htgt. wp_steps.
  eapply wp_mono; [|apply create_target_schema_wp]. wp_simpl. rewrite Hscript.
  intros s1 r [-> ->]. wp_simpl. wp_step.
  eapply wp_mono;
    [|apply replicate_tables_spec;
      [eapply provisioned_ready, schema_script_provisions, Hscript
      |apply tables_not_control]].
  wp_simpl. intros s2 r (bs & ls & -> & Hls & Hlog2 & [Hc2 Hctl2] & Hsc2 & Hrp2 & Hmiss).
  rewrite andb_true_r. wp_step.
  destruct s2 as [sc2 tc2 el2 db2 rp2 lg2]; simpl in *; subst.
  assert (Hfinish : forall (b : bool) vl,
    (if bs
     then exists vl', vl = LogValidating :: vl' /\ forallb validation_line vl' = true
     else vl = [] /\ b = false) ->
    wp (let! s0 := get in
        save_report env (generate_report (now env) (execution_log s0)) >>
        (if b then log LogRunOk else log LogRunWithErrors) >>
        log LogReportSaved >> ret b)
      (State (Some (Handle false)) (Some (Connection None false)) el2 db2 (reports s)
         ((((((logged s ++ [LogRunStart]) ++ [LogSourceConnected])
              ++ [LogTargetConnected]) ++ [LogSchemaCreated]) ++ ls) ++ vl))
      (fun s0 r0 =>
        match r0 with
        | Ok a0 =>
            wp close_connections s0 (fun s3 u =>
              match u with
              | Ok _ => run_outcome env s s3 (Ok a0)
              | Raise e => run_outcome env s s3 (Raise e)
              end)
        | Raise e =>
            wp (log (LogCriticalError e) >> ret false) s0 (fun s1 r =>
              wp close_connections s1 (fun s3 u =>
                match u with
                | Ok _ => run_outcome env s s3 r
                | Raise e => run_outcome env s s3 (Raise e)
                end))
        end)).
  { intros b vl Hvl.
    unfold save_report, close_connections, close_source, close_target, run_outcome.
    wp_steps. destruct (reports_writable env) eqn:Hw; wp_steps.
    - destruct b; wp_steps;
        [exists bs, ls, vl, true, [LogRunOk; LogReportSaved]
        |exists bs, ls, vl, false, [LogRunWithErrors; LogReportSaved]];
        (split_and!; [done|done| |done|reflexivity|reflexivity|reflexivity|done|done]);
        rewrite <- !app_assoc; reflexivity.
    - exists bs, ls, vl, b, [LogCriticalError "Permission denied: reports"].
      split_and!; [done|done| |done|reflexivity|reflexivity|reflexivity|done|done].
      rewrite <- !app_assoc; reflexivity. }
  destruct bs.
  - eapply wp_mono; [|apply validate_replication_logs]. wp_simpl.
    intros s1 r (b & vl & -> & -> & Hvl). apply Hfinish. eauto.
  - wp_step. specialize (Hfinish false [] (conj eq_refl eq_refl)).
    rewrite app_nil_r in Hfinish. exact Hfinish.
Qed.

(** ** Runs that stop before the loop *)

Lemma run_source_unreachable s :
  source_reachable env = false ->
  wp (run_full_replication env) s (fun s' r =>
    r = Ok false
    /\ s' = (close_connections
               (set_logged
                  (logged s ++ [LogRunStart;
                                LogSourceConnectError "could not connect to server"])
                  s)).1).
Proof.
  intros Hsrc. unfold run_full_replication, connect_source. rewrite Hsrc.
  wp_steps. unfold wp, close_connections, close_source, close_target, bind, modify.
  by rewrite <- app_assoc.
Qed.

Lemma close_connections_Ok s : exists s', close_connections s = (s', Ok tt).
Proof.
  unfold close_connections, close_source, close_target, bind, modify. eauto.
Qed.

Lemma run_target_unreachable s :
  source_reachable env = true ->
  target_reachable env = false ->
  wp (run_full_replication env) s (fun s' r =>
    r = Ok false
    /\ s' = (close_connections
               (set_logged
                  (logged s ++ [LogRunStart; LogSourceConnected;
                                LogTargetConnectError "unable to open database file"])
                  (set_source_conn (Some (Handle false)) s))).1).
Proof.
  intros Hsrc Htgt. unfold run_full_replication, connect_source, connect_target.
  rewrite Hsrc, Htgt. wp_steps.
  unfold wp, close_connections, close_source, close_target, bind, modify.
  by rewrite <- !app_assoc.
Qed.

Lemma run_schema_fails s e :
  source_reachable env = true ->
  target_reachable env = true ->
  schema_script (target_db s) = Raise e ->
  wp (run_full_replication env) s (fun s' r =>
    r = Ok false
    /\ reports s' = reports s /\ execution_log s' = execution_log s
    /\ logged s'
       = logged s ++ [LogRunStart; LogSourceConnected; LogTargetConnected;
                      LogSchemaError e]
    /\ source_conn s' = Some (Handle true)
    /\ target_conn s' = Some (Connection None true)).
Proof.
  intros Hsrc Htgt Hscript.
  unfold run_full_replication, connect_source, connect_target.
  rewrite Hsrc, Htgt. wp_steps.
  eapply wp_mono; [|apply create_target_schema_wp]. wp_simpl. rewrite Hscript.
  intros [sc tc el db rp lg] r (-> & Hsc & Hel & Hrp & Hlg & w' & Hw); simpl in *; subst.
  unfold close_connections, close_source, close_target. wp_steps.
  rewrite <- !app_assoc. done.
Qed.

End Run.

(** * The claims *)

Lemma load_handler_records env table_name e s1 :
  wp (log (LogLoadError table_name e) >>
      let! _ := target_cursor in
      execute_dml (insert_rows "etl_control"
        [control_row table_name (now env) 0 (VInt 0) ERROR (VText e)]) >>
      commit >>
      modify (fun s => set_execution_log
        (execution_log s ++ [LogEntry table_name 0 0 ERROR (Some e)]) s) >>
      ret false)
     s1
     (fun s' r => r = Ok false ->
        exists prior,
          control_records s' = prior ++ [error_record env table_name e]
          /\ execution_log s'
             = execution_log s1 ++ [LogEntry table_name 0 0 ERROR (Some e)]).
Proof.
  destruct s1 as [sc [[w []]|] el db rp lg]; [by wp_steps| |by wp_steps].
  apply load_handler_wp.
  destruct (db_tables (default db w) !! "etl_control") as [ct|]; [|done].
  intros _. exists (tbl_rows ct). unfold control_records; simpl.
  by rewrite rows_of_set_table, decide_True.
Qed.

Lemma load_failure_wp env df table_name s :
  wp (load_table_data env df table_name) s (fun s' r =>
    r = Ok false ->
    exists prior e,
      control_records s' = prior ++ [error_record env table_name e]
      /\ execution_log s'
         = execution_log s ++ [LogEntry table_name 0 0 ERROR (Some e)]).
Proof.
  unfold load_table_data. apply wp_try_except.
  eapply wp_mono with (Q := fun s1 r =>
    match r with Ok a => a = true | Raise _ => execution_log s1 = execution_log s end).
  - intros s1 [a|e]; [by intros ->|]. intros Hel.
    eapply wp_mono; [|apply load_handler_records].
    simpl. intros s' r H Hr. destruct (H Hr) as (prior & ? & ?).
    exists prior, e. by rewrite <- Hel.
  - destruct s as [sc tc el db rp lg]. unfold to_sql. wp_go; done.
Qed.

(** With the schema in place and no transaction pending, what a failing
    [to_sql] leaves of the table depends on where it failed: rolled back
    by pandas inside its INSERT transaction, or raised before it. *)



(** C1: for a load whose bulk insert step fails after the delete step, the
    delete should be rolled back and an ERROR record written.  Evaluated on
    a target holding two products, with [to_sql] raising before its INSERT
    transaction starts: the ERROR record is written, but the handler's
    commit makes the DELETE permanent and the table is left empty. *)
Lemma failed_load_commits_the_delete :
  let env := sample_env sample_source (RaisedBeforeInsert "cannot convert the frame") in
  let s := connected warehouse in
  let s' := (load_table_data env [product_a] "dim_product" s).1 in
  committed_rows "dim_product" s = Some [product_a; product_b]
  /\ (load_table_data env [product_a] "dim_product" s).2 = Ok false
  /\ committed_rows "dim_product" s' = Some []
  /\ control_records s'
     = [error_record env "dim_product" "cannot convert the frame"]
  /\ is_error_record_for "dim_product"
       (error_record env "dim_product" "cannot convert the frame").
Proof.
  cbv zeta. unfold is_error_record_for.
  split_and!; vm_compute; reflexivity.
Qed.

(** C4: a load that returns [True] leaves the target table holding exactly
    the rows of the dataset, in the committed file, whatever the table held
    before and whatever was pending on the connection: no row of the prior
    contents remains and no row is duplicated. *)
Theorem full_replace_correctness env df table_name s s' :
  table_name ≠ "etl_control" ->
  load_table_data env df table_name s = (s', Ok true) ->
  committed_rows table_name s' = Some df
  /\ target_conn s' = Some (Connection None false).
Proof.
  intros Hne Hrun.
  by apply (wp_run _ _ _ _ _ Hrun (load_replaces_wp env df table_name s Hne)).
Qed.

Lemma full_replace_correctness_witness :
  committed_rows "dim_product"
    (load_table_data (sample_env sample_source Inserted) [product_a] "dim_product"
       (connected warehouse)).1
  = Some [product_a]
  /\ target_conn
       (load_table_data (sample_env sample_source Inserted) [product_a] "dim_product"
          (connected warehouse)).1
     = Some (Connection None false).
Proof.
  apply (full_replace_correctness (sample_env sample_source Inserted) [product_a]
           "dim_product" (connected warehouse)).
  - discriminate.
  - vm_compute. reflexivity.
Defined.

(** C10: a load that returns [False] has appended to [etl_control] a record
    with [records_processed = 0] and [execution_time_seconds = 0] and to the
    execution log, from which the report takes its entries, an entry with
    [records = 0] and [time = 0], whatever the dataset and the clock. *)
Theorem failed_load_records_zero env df table_name s s' :
  load_table_data env df table_name s = (s', Ok false) ->
  exists prior e record,
    control_records s' = prior ++ [record]
    /\ record !! "table_name" = Some (VText table_name)
    /\ record !! "status" = Some (VText "ERROR")
    /\ record !! "records_processed" = Some (VInt 0)
    /\ record !! "execution_time_seconds" = Some (VInt 0)
    /\ execution_log s' = execution_log s ++ [LogEntry table_name 0 0 ERROR (Some e)]
    /\ tables_detail (generate_report (now env) (execution_log s'))
       = execution_log s ++ [LogEntry table_name 0 0 ERROR (Some e)].
Proof.
  intros Hrun.
  destruct (wp_run _ _ _ _ _ Hrun (load_failure_wp env df table_name s) eq_refl)
    as (prior & e & Hctl & Hlog).
  exists prior, e, (error_record env table_name e).
  rewrite Hlog. split_and!; try done.
Qed.

Lemma failed_load_records_zero_witness :
  exists prior e record,
    control_records
      (load_table_data (sample_env sample_source (RaisedInInsert "UNIQUE constraint failed"))
         [product_a; product_a] "dim_product" (connected warehouse)).1
    = prior ++ [record]
    /\ record !! "table_name" = Some (VText "dim_product")
    /\ record !! "status" = Some (VText "ERROR")
    /\ record !! "records_processed" = Some (VInt 0)
    /\ record !! "execution_time_seconds" = Some (VInt 0)
    /\ execution_log
         (load_table_data (sample_env sample_source (RaisedInInsert "UNIQUE constraint failed"))
            [product_a; product_a] "dim_product" (connected warehouse)).1
       = execution_log (connected warehouse)
         ++ [LogEntry "dim_product" 0 0 ERROR (Some e)]
    /\ tables_detail
         (generate_report
            (now (sample_env sample_source (RaisedInInsert "UNIQUE constraint failed")))
            (execution_log
               (load_table_data
                  (sample_env sample_source (RaisedInInsert "UNIQUE constraint failed"))
                  [product_a; product_a] "dim_product" (connected warehouse)).1))
       = execution_log (connected warehouse)
         ++ [LogEntry "dim_product" 0 0 ERROR (Some e)].
Proof.
  apply (failed_load_records_zero
           (sample_env sample_source (RaisedInInsert "UNIQUE constraint failed"))
           [product_a; product_a] "dim_product" (connected warehouse)).
  vm_compute. reflexivity.
Defined.

(** C6: schema provisioning is idempotent.  Whenever [create_target_schema]
    succeeds, the five tables and three indexes exist and running it again
    succeeds and changes nothing but the log; from an empty target the first
    run yields exactly [provisioned_schema]; and on a target that already
    has the tables and indexes it changes nothing. *)
Theorem schema_provisioning_idempotent s :
  (forall s1, create_target_schema s = (s1, Ok true) ->
     provisioned (target_db s1)
     /\ create_target_schema s1
        = (set_logged (logged s1 ++ [LogSchemaCreated]) s1, Ok true))
  /\ (target_conn s = Some (Connection None false) ->
      target_db s = empty_database ->
      exists s1, create_target_schema s = (s1, Ok true)
                 /\ target_db s1 = provisioned_schema)
  /\ (target_conn s = Some (Connection None false) ->
      provisioned (target_db s) ->
      create_target_schema s = (set_logged (logged s ++ [LogSchemaCreated]) s, Ok true)).
Proof.
  assert (Hnoop : forall s0, target_conn s0 = Some (Connection None false) ->
    provisioned (target_db s0) ->
    create_target_schema s0 = (set_logged (logged s0 ++ [LogSchemaCreated]) s0, Ok true)).
  { intros [sc tc el db rp lg] Hc Hp; simpl in *; subst tc.
    pose proof (create_target_schema_wp sc None el db rp lg) as H.
    unfold wp in H. simpl in H. rewrite (schema_script_noop db Hp) in H.
    destruct (create_target_schema _) as [s' r]; simpl in H.
    by destruct H as [-> ->]. }
  split_and!.
  - intros s1 Hrun. destruct s as [sc [[w []]|] el db rp lg].
    + exfalso. apply (wp_run _ _ _ _ (fun _ r => r <> Ok true) Hrun); [|done].
      unfold create_target_schema. by wp_steps.
    + pose proof (wp_run _ _ _ _ _ Hrun (create_target_schema_wp sc w el db rp lg)) as H.
      simpl in H. destruct (schema_script (default db w)) as [final|e] eqn:Hs.
      * destruct H as [_ ->]. apply schema_script_provisions in Hs.
        split; [done|]. by apply Hnoop.
      * by destruct H.
    + exfalso. apply (wp_run _ _ _ _ (fun _ r => r <> Ok true) Hrun); [|done].
      unfold create_target_schema. by wp_steps.
  - intros Hc Hdb. destruct s as [sc tc el db rp lg]; simpl in *; subst.
    pose proof (create_target_schema_wp sc None el empty_database rp lg) as H.
    unfold wp in H. simpl in H. rewrite schema_script_empty in H.
    destruct (create_target_schema _) as [s' r]; simpl in H.
    destruct H as [-> ->]. eauto.
  - apply Hnoop.
Qed.

Lemma schema_provisioning_idempotent_witness :
  provisioned (target_db (create_target_schema (connected empty_database)).1)
  /\ create_target_schema (create_target_schema (connected empty_database)).1
     = (set_logged
          (logged (create_target_schema (connected empty_database)).1 ++ [LogSchemaCreated])
          (create_target_schema (connected empty_database)).1,
        Ok true).
Proof.
  apply (proj1 (schema_provisioning_idempotent (connected empty_database))).
  vm_compute. reflexivity.
Defined.

(** C8: when the target connection cannot be opened (the source one having
    been opened), the run returns [False] having done nothing else: no schema
    statement, no replication, no validation and no report; the target file,
    the control records in it and the execution log are as they were. *)
Theorem target_connection_failure_stops_the_run env s s' r :
  source_reachable env = true ->
  target_reachable env = false ->
  run_full_replication env s = (s', r) ->
  r = Ok false
  /\ logged s'
     = logged s ++ [LogRunStart; LogSourceConnected;
                    LogTargetConnectError "unable to open database file"]
  /\ target_db s' = target_db s
  /\ control_records s' = control_records s
  /\ execution_log s' = execution_log s
  /\ reports s' = reports s.
Proof.
  intros Hsrc Htgt Hrun.
  destruct (wp_run _ _ _ _ _ Hrun (run_target_unreachable env s Hsrc Htgt)) as [-> ->].
  unfold control_records, close_connections, close_source, close_target, bind, modify.
  simpl. by destruct (target_conn s).
Qed.

Lemma target_connection_failure_stops_the_run_witness :
  (run_full_replication no_target_env (init warehouse)).2 = Ok false
  /\ logged (run_full_replication no_target_env (init warehouse)).1
     = logged (init warehouse)
       ++ [LogRunStart; LogSourceConnected;
           LogTargetConnectError "unable to open database file"]
  /\ target_db (run_full_replication no_target_env (init warehouse)).1
     = target_db (init warehouse)
  /\ control_records (run_full_replication no_target_env (init warehouse)).1
     = control_records (init warehouse)
  /\ execution_log (run_full_replication no_target_env (init warehouse)).1
     = execution_log (init warehouse)
  /\ reports (run_full_replication no_target_env (init warehouse)).1
     = reports (init warehouse).
Proof.
  apply (target_connection_failure_stops_the_run no_target_env (init warehouse)).
  - reflexivity.
  - reflexivity.
  - by destruct (run_full_replication no_target_env (init warehouse)).
Defined.

(** C9: on every path out of [run_full_replication] the run returns a
    boolean (no exception escapes), each connection attribute that is set is
    closed, a connection that was opened is set, and a connection that
    could not be opened stays unset, the [finally] block skipping it. *)
Theorem connections_closed_on_every_path env s s' r :
  run_full_replication env s = (s', r) ->
  (exists b, r = Ok b)
  /\ (forall h, source_conn s' = Some h -> src_closed h = true)
  /\ (forall c, target_conn s' = Some c -> closed c = true)
  /\ (source_reachable env = true -> source_conn s' = Some (Handle true))
  /\ (source_reachable env = true -> target_reachable env = true ->
      target_conn s' = Some (Connection None true))
  /\ (source_reachable env = false -> source_conn s = None -> source_conn s' = None)
  /\ (source_reachable env = false \/ target_reachable env = false ->
      target_conn s = None -> target_conn s' = None).
Proof.
  intros Hrun.
  assert (Hclosed : (exists b, r = Ok b)
    /\ (forall h, source_conn s' = Some h -> src_closed h = true)
    /\ (forall c, target_conn s' = Some c -> closed c = true)).
  { apply (wp_run _ _ _ _ (fun s' r => (exists b, r = Ok b)
      /\ (forall h, source_conn s' = Some h -> src_closed h = true)
      /\ (forall c, target_conn s' = Some c -> closed c = true)) Hrun).
    unfold run_full_replication.
    wp_step. wp_step. wp_step. wp_step.
    eapply wp_mono; [|apply wp_intro]. intros [[h1|] [c1|] el1 db1 rp1 lg1] r1 _;
      unfold close_connections, close_source, close_target;
      destruct r1 as [b|e]; wp_steps;
      (split_and!; [by eauto|..]; by intros ? ?; simplify_eq). }
  destruct Hclosed as (Hr & Hsc & Htc). split_and!; try done.
  - intros Hsrc. destruct (target_reachable env) eqn:Htgt.
    + destruct (schema_script (target_db s)) as [final|e] eqn:Hs.
      * destruct (wp_run _ _ _ _ _ Hrun (run_shape env s final Hsrc Htgt Hs))
          as (? & ? & ? & ? & ? & H). by destruct H as (_ & _ & _ & _ & _ & ? & _).
      * by destruct (wp_run _ _ _ _ _ Hrun (run_schema_fails env s e Hsrc Htgt Hs))
          as (_ & _ & _ & _ & ? & _).
    + destruct (wp_run _ _ _ _ _ Hrun (run_target_unreachable env s Hsrc Htgt))
        as [_ ->].
      unfold close_connections, close_source, close_target, bind, modify. simpl.
      by destruct (target_conn s).
  - intros Hsrc Htgt. destruct (schema_script (target_db s)) as [final|e] eqn:Hs.
    + destruct (wp_run _ _ _ _ _ Hrun (run_shape env s final Hsrc Htgt Hs))
        as (? & ? & ? & ? & ? & H). by destruct H as (_ & _ & _ & _ & _ & _ & ?).
    + by destruct (wp_run _ _ _ _ _ Hrun (run_schema_fails env s e Hsrc Htgt Hs))
        as (_ & _ & _ & _ & _ & ?).
  - intros Hsrc Hnone.
    destruct (wp_run _ _ _ _ _ Hrun (run_source_unreachable env s Hsrc)) as [_ ->].
    unfold close_connections, close_source, close_target, bind, modify. simpl.
    rewrite Hnone. simpl. by destruct (target_conn s).
  - intros Hfail Hnone. destruct (source_reachable env) eqn:Hsrc.
    + destruct Hfail as [?|Htgt]; [done|].
      destruct (wp_run _ _ _ _ _ Hrun (run_target_unreachable env s Hsrc Htgt))
        as [_ ->].
      unfold close_connections, close_source, close_target, bind, modify. simpl.
      by rewrite Hnone.
    + destruct (wp_run _ _ _ _ _ Hrun (run_source_unreachable env s Hsrc)) as [_ ->].
      unfold close_connections, close_source, close_target, bind, modify. simpl.
      destruct (source_conn s); simpl; by rewrite Hnone.
Qed.

Lemma connections_closed_on_every_path_witness :
  (exists b, (run_full_replication no_target_env (init warehouse)).2 = Ok b)
  /\ (forall h, source_conn (run_full_replication no_target_env (init warehouse)).1 = Some h ->
      src_closed h = true)
  /\ (forall c, target_conn (run_full_replication no_target_env (init warehouse)).1 = Some c ->
      closed c = true)
  /\ (source_reachable no_target_env = true ->
      source_conn (run_full_replication no_target_env (init warehouse)).1
      = Some (Handle true))
  /\ (source_reachable no_target_env = true -> target_reachable no_target_env = true ->
      target_conn (run_full_replication no_target_env (init warehouse)).1
      = Some (Connection None true))
  /\ (source_reachable no_target_env = false -> source_conn (init warehouse) = None ->
      source_conn (run_full_replication no_target_env (init warehouse)).1 = None)
  /\ (source_reachable no_target_env = false \/ target_reachable no_target_env = false ->
      target_conn (init warehouse) = None ->
      target_conn (run_full_replication no_target_env (init warehouse)).1 = None).
Proof.
  apply (connections_closed_on_every_path no_target_env (init warehouse)).
  by destruct (run_full_replication no_target_env (init warehouse)).
Defined.

(** ** The lines of a run, read back *)










(** * The validator *)








(** * Further properties of the replicator *)

(** ** What a load leaves alone *)

Ltac handler_steps := repeat first [ apply load_handler_wp; wp_simpl | wp_step ].

Ltac frame_done :=
  split_and!;
    [ intros; by db_simpl
    | db_simpl;
      repeat match goal with H : db_tables _ !! _ = _ |- _ => rewrite H end;
      split; intros ?; eauto
    | done ].

Lemma load_table_data_frame env df table_name s :
  target_conn s = Some (Connection None false) ->
  table_name ≠ "etl_control" ->
  wp (load_table_data env df table_name) s (fun s' _ =>
    (forall other, other ≠ table_name -> other ≠ "etl_control" ->
       db_tables (target_db s') !! other = db_tables (target_db s) !! other)
    /\ (is_Some (db_tables (target_db s') !! table_name)
        <-> is_Some (db_tables (target_db s) !! table_name))
    /\ db_indexes (target_db s') = db_indexes (target_db s)).
Proof.
  intros Hc Hne. destruct s as [sc tc el db rp lg]; simpl in Hc; subst tc.
  unfold load_table_data. wp_steps. unfold delete_from at 1.
  destruct (db_tables db !! table_name) as [t|] eqn:Ht.
  2:{ handler_steps. destruct (db_tables db !! "etl_control") as [ct|]; wp_simpl.
      - frame_done.
      - frame_done. }
  wp_step. unfold to_sql. destruct (to_sql_ends env table_name) as [|e|e].
  - wp_steps. db_simpl. rewrite bool_decide_true by eauto. wp_steps.
    destruct df as [|r0 df]; wp_steps.
    + unfold insert_rows. db_simpl.
      destruct (db_tables db !! "etl_control") as [ct|] eqn:Hct.
      * wp_steps. frame_done.
      * handler_steps. db_simpl. rewrite Hct. frame_done.
    + unfold insert_rows at 1. db_simpl. wp_steps.
      unfold insert_rows. db_simpl.
      destruct (db_tables db !! "etl_control") as [ct|] eqn:Hct.
      * wp_steps. frame_done.
      * handler_steps. db_simpl. rewrite Hct.
        frame_done.
  - handler_steps. db_simpl.
    destruct (db_tables db !! "etl_control") as [ct|] eqn:Hct; wp_simpl.
    + frame_done.
    + frame_done.
  - handler_steps.
    destruct (db_tables db !! "etl_control") as [ct|] eqn:Hct; wp_simpl.
    + frame_done.
    + frame_done.
Qed.

Lemma wp_conj {A} (m : M A) s (Q1 Q2 : state -> outcome A -> Prop) :
  wp m s Q1 -> wp m s Q2 -> wp m s (fun s' r => Q1 s' r /\ Q2 s' r).
Proof. unfold wp. auto. Qed.

(** ** One pass of the loop, with the database and the two ledgers *)

Section Ledger.

Variable env : environment.

Lemma replicate_table_full table_name s :
  ready s -> source_conn s = Some (Handle false) -> table_name ≠ "etl_control" ->
  wp (replicate_table env table_name) s (fun s' r =>
    exists b, r = Ok b /\ ready s' /\ source_conn s' = Some (Handle false)
      /\ reports s' = reports s
      /\ (forall other, other ≠ table_name -> other ≠ "etl_control" ->
            db_tables (target_db s') !! other = db_tables (target_db s) !! other)
      /\ (b = true ->
            is_Some (source_db env !! table_name)
            /\ committed_rows table_name s' = source_db env !! table_name)
      /\ exists entries records,
           execution_log s' = execution_log s ++ entries
           /\ control_records s' = control_records s ++ records
           /\ table_ <$> entries = readable env [table_name]
           /\ omap (fun r : row => r !! "table_name") records
              = VText <$> readable env [table_name]
           /\ (b = true -> Forall (fun e => status_ e = SUCCESS) entries)).
Proof.
  intros [Hc [ct Hct]] Hsc Hne. unfold replicate_table, extract_table_data, readable.
  wp_steps. apply wp_read_sql_query; wp_simpl. rewrite Hsc; wp_simpl.
  rewrite filter_cons, filter_nil.
  destruct (source_db env !! table_name) as [df|] eqn:Hdf.
  2:{ wp_steps. exists false. unfold ready; wp_simpl.
      split_and!; eauto; try done.
      exists [], []. rewrite !app_nil_r, decide_False by (by intros [? ?]).
      by split_and!. }
  rewrite decide_True by eauto. wp_steps.
  eapply wp_mono;
    [|apply wp_conj;
      [apply load_table_data_spec; wp_simpl; done
      |apply load_table_data_frame; wp_simpl; done]].
  wp_simpl. rewrite Hct. intros s' r [(Hready & Hsc' & Hrp & H) (Hframe & _ & _)].
  assert (Hname : forall n (t : value) st em,
    control_row table_name (now env) n t st em !! "table_name"
    = Some (VText table_name)) by done.
  destruct (db_tables (target_db s) !! table_name), (to_sql_ends env table_name).
  1:{ destruct H as (-> & Hrows & Hctl & Hel & _). exists true.
      split_and!; [done|done|done|done|exact Hframe|intros _; split; [eauto|congruence]|].
      eexists [_], [_]. split_and!; [exact Hel|exact Hctl|done| |by repeat constructor].
      simpl. unfold success_record. by rewrite Hname. }
  all: destruct H as (-> & (Hctl & Hel & _) & _); exists false;
    (split_and!; [done|done|done|done|exact Hframe|done|]);
    eexists [_], [_]; (split_and!; [exact Hel|exact Hctl|done| |done]);
    simpl; unfold error_record; by rewrite Hname.
Qed.

Lemma readable_cons t ts : readable env (t :: ts) = readable env [t] ++ readable env ts.
Proof.
  unfold readable. rewrite !filter_cons, filter_nil.
  by destruct (decide (is_Some (source_db env !! t))).
Qed.

Lemma replicate_tables_full ts : forall success s,
  ready s -> source_conn s = Some (Handle false) ->
  "etl_control" ∉ ts -> NoDup ts ->
  wp (replicate_tables env ts success) s (fun s' r =>
    exists b, r = Ok (b && success) /\ ready s' /\ source_conn s' = Some (Handle false)
      /\ reports s' = reports s
      /\ (forall other, other ∉ ts -> other ≠ "etl_control" ->
            db_tables (target_db s') !! other = db_tables (target_db s) !! other)
      /\ (b = true -> forall t, t ∈ ts ->
            is_Some (source_db env !! t)
            /\ committed_rows t s' = source_db env !! t)
      /\ exists entries records,
           execution_log s' = execution_log s ++ entries
           /\ control_records s' = control_records s ++ records
           /\ table_ <$> entries = readable env ts
           /\ omap (fun r : row => r !! "table_name") records
              = VText <$> readable env ts
           /\ (b = true -> Forall (fun e => status_ e = SUCCESS) entries)).
Proof.
  induction ts as [|t ts IH]; intros success s Hready Hsc Hts Hnd; simpl.
  - wp_steps. exists true. split_and!; try done.
    + by intros _ t ?%elem_of_nil.
    + exists [], []. by rewrite !app_nil_r.
  - apply not_elem_of_cons in Hts as [Ht Hts].
    apply NoDup_cons in Hnd as [Hnin Hnd].
    wp_step. eapply wp_mono; [|by apply replicate_table_full].
    intros s1 r (b & -> & Hready1 & Hsc1 & Hrp1 & Hframe1 & Hrows1
                 & es1 & rs1 & Hel1 & Hctl1 & Hes1 & Hrs1 & Hst1).
    eapply wp_mono; [|by apply IH].
    intros s2 r (bs & -> & Hready2 & Hsc2 & Hrp2 & Hframe2 & Hrows2
                 & es2 & rs2 & Hel2 & Hctl2 & Hes2 & Hrs2 & Hst2).
    exists (b && bs). split_and!; try congruence.
    + by destruct b, bs, success.
    + intros other [Hne Hnin']%not_elem_of_cons Hctl.
      rewrite Hframe2, Hframe1 by done. done.
    + intros [-> ->]%andb_true_iff t' [->|Hin]%elem_of_cons.
      * destruct (Hrows1 eq_refl) as [? Hrows]. split; [done|].
        unfold committed_rows, rows_of in *. rewrite Hframe2 by done. done.
      * by apply Hrows2.
    + exists (es1 ++ es2), (rs1 ++ rs2).
      rewrite readable_cons, fmap_app, omap_app, Hes1, Hes2, Hrs1, Hrs2.
      rewrite Hel2, Hel1, Hctl2, Hctl1, <- !app_assoc, fmap_app.
      split_and!; try done.
      intros [-> ->]%andb_true_iff. apply Forall_app. auto.
Qed.

End Ledger.

Lemma create_table_keeps_rows name cols fks db db' t :
  create_table_if_not_exists name cols fks db = Ok db' ->
  default [] (rows_of t db') = default [] (rows_of t db).
Proof.
  unfold create_table_if_not_exists.
  destruct (db_tables db !! name) as [tb|] eqn:Hn; intros [= <-]; [done|].
  rewrite rows_of_set_table. destruct (decide (name = t)) as [<-|]; [|done].
  unfold rows_of. by rewrite Hn.
Qed.

Lemma create_index_keeps_rows idx tbl col db db' t :
  create_index_if_not_exists idx tbl col db = Ok db' ->
  rows_of t db' = rows_of t db.
Proof.
  unfold create_index_if_not_exists.
  destruct (db_indexes db !! idx); [by intros [= <-]|].
  destruct (db_tables db !! tbl) as [tb|]; [|done].
  destruct (has_column col tb); by intros [= <-].
Qed.

(** The schema statements never touch a row. *)
Lemma schema_script_keeps_rows db final t :
  schema_script db = Ok final ->
  default [] (rows_of t final) = default [] (rows_of t db).
Proof.
  unfold schema_script. intros H.
  repeat (apply and_then_Ok in H as (? & H & ?)).
  repeat match goal with
  | H : create_index_if_not_exists _ _ _ _ = Ok _ |- _ =>
      apply (create_index_keeps_rows _ _ _ _ _ t) in H; rewrite H
  end.
  repeat match goal with
  | H : create_table_if_not_exists _ _ _ ?d = Ok ?d' |- context [rows_of t ?d'] =>
      apply (create_table_keeps_rows _ _ _ _ _ t) in H; rewrite H
  end.
  done.
Qed.

Lemma tables_NoDup : NoDup tables.
Proof. apply (bool_decide_unpack _). vm_compute. exact I. Qed.

(** A run that reaches the loop, with the database and the two ledgers. *)
Lemma run_full env s final :
  source_reachable env = true ->
  target_reachable env = true ->
  schema_script (target_db s) = Ok final ->
  wp (run_full_replication env) s (run_ledgers env final s).
Proof.
  intros Hsrc Htgt Hscript. unfold run_full_replication, connect_source, connect_target.
  rewrite Hsrc, Htgt. wp_steps.
  eapply wp_mono; [|apply create_target_schema_wp]. wp_simpl. rewrite Hscript.
  intros s1 r [-> ->]. wp_simpl. wp_step.
  eapply wp_mono;
    [|apply replicate_tables_full;
      [eapply provisioned_ready, schema_script_provisions, Hscript
      |done|apply tables_not_control|apply tables_NoDup]].
  wp_simpl.
  intros [sc2 tc2 el2 db2 rp2 lg2] r
    (b & -> & [Hc2 Hctl2] & Hsc2 & Hrp2 & Hframe & Hrows
     & entries & records & Hel & Hctl & Hentries & Hrecords & Hstatus).
  simpl in *; subst sc2 tc2 rp2. rewrite andb_true_r. wp_step.
  assert (Hctl0 : default [] (rows_of "etl_control" final)
                  = default [] (rows_of "etl_control" (target_db s)))
    by (by apply schema_script_keeps_rows).
  unfold control_records in Hctl; simpl in Hctl. rewrite Hctl0 in Hctl.
  assert (Hpost : forall (verdict : bool) lg,
    (verdict = true -> b = true) ->
    wp (let! s0 := get in
        save_report env (generate_report (now env) (execution_log s0)) >>
        (if verdict then log LogRunOk else log LogRunWithErrors) >>
        log LogReportSaved >> ret verdict)
      (State (Some (Handle false)) (Some (Connection None false)) el2 db2 (reports s) lg)
      (fun s0 r0 =>
        match r0 with
        | Ok a0 =>
            wp close_connections s0 (fun s3 u =>
              match u with
              | Ok _ => run_ledgers env final s s3 (Ok a0)
              | Raise e => run_ledgers env final s s3 (Raise e)
              end)
        | Raise e =>
            wp (log (LogCriticalError e) >> ret false) s0 (fun s1 r =>
              wp close_connections s1 (fun s3 u =>
                match u with
                | Ok _ => run_ledgers env final s s3 r
                | Raise e => run_ledgers env final s s3 (Raise e)
                end))
        end)).
  { intros verdict lg Hverdict.
    unfold save_report, close_connections, close_source, close_target, run_ledgers.
    wp_steps. destruct (reports_writable env) eqn:Hw; wp_steps.
    - destruct verdict; wp_steps;
        exists b, entries, records; unfold control_records, committed_rows; simpl;
        (split_and!; try done; try congruence);
        intros _; by apply Hverdict.
    - exists b, entries, records. unfold control_records, committed_rows; simpl.
      split_and!; try done; congruence. }
  destruct b.
  - eapply wp_mono; [|apply validate_replication_logs]. wp_simpl.
    intros s1 r (verdict & vl & -> & -> & Hvl). by apply Hpost.
  - wp_step. by apply (Hpost false).
Qed.

(** * Further theorems *)

(** X1: a run returns [True] only if every replicated table of the
    committed target holds exactly the rows of its source relation. *)
Theorem successful_run_mirrors_source env s s' :
  run_full_replication env s = (s', Ok true) ->
  forall t, t ∈ tables ->
    exists rows, source_db env !! t = Some rows /\ committed_rows t s' = Some rows.
Proof.
  intros Hrun t Ht.
  destruct (source_reachable env) eqn:Hsrc.
  2:{ by destruct (wp_run _ _ _ _ _ Hrun (run_source_unreachable env s Hsrc)). }
  destruct (target_reachable env) eqn:Htgt.
  2:{ by destruct (wp_run _ _ _ _ _ Hrun (run_target_unreachable env s Hsrc Htgt)). }
  destruct (schema_script (target_db s)) as [final|e] eqn:Hs.
  2:{ by destruct (wp_run _ _ _ _ _ Hrun (run_schema_fails env s e Hsrc Htgt Hs)). }
  destruct (wp_run _ _ _ _ _ Hrun (run_full env s final Hsrc Htgt Hs))
    as (b & entries & records & Hb & Hrows & _).
  destruct (Hrows (Hb eq_refl) t Ht) as [[rows Hrows'] Heq].
  exists rows. by rewrite Heq.
Qed.

Lemma successful_run_mirrors_source_witness :
  (run_full_replication (sample_env sample_source Inserted) (init empty_database)).2
  = Ok true
  /\ "fact_sales" ∈ tables
  /\ exists rows,
       source_db (sample_env sample_source Inserted) !! "fact_sales" = Some rows
       /\ committed_rows "fact_sales"
            (run_full_replication (sample_env sample_source Inserted)
               (init empty_database)).1
          = Some rows.
Proof.
  assert (Hin : "fact_sales" ∈ tables).
  { apply (bool_decide_unpack ("fact_sales" ∈ tables)). vm_compute. exact I. }
  split_and!; [vm_compute; reflexivity | exact Hin |].
  apply (successful_run_mirrors_source (sample_env sample_source Inserted)
           (init empty_database)
           (run_full_replication (sample_env sample_source Inserted)
              (init empty_database)).1);
    [vm_compute; reflexivity | exact Hin].
Defined.



(** ** The report *)


Lemma generate_report_partition log :
  (length (filter (fun l => status_ l = SUCCESS) log)
   + length (filter (fun l => status_ l = ERROR) log)
   = length log)%nat.
Proof.
  induction log as [|l log IH]; [done|].
  rewrite !filter_cons. destruct l as [t n us [] e]; simpl; lia.
Qed.

(** X3: the report counts every entry of the execution log as successful or
    failed, never both; it sums the records of the successful entries only,
    so an entry of a failed load adds nothing to the total, and it carries
    the log itself as its detail. *)
Theorem report_accounting now log :
  total_tables (generate_report now log) = length log
  /\ (successful_tables (generate_report now log)
      + failed_tables (generate_report now log)
      = total_tables (generate_report now log))%nat
  /\ tables_detail (generate_report now log) = log
  /\ (forall t n us e,
        total_records_processed (generate_report now (log ++ [LogEntry t n us ERROR e]))
        = total_records_processed (generate_report now log))
  /\ (forall t n us e,
        total_records_processed (generate_report now (log ++ [LogEntry t n us SUCCESS e]))
        = (total_records_processed (generate_report now log) + n)%nat).
Proof.
  unfold generate_report; simpl. split_and!; try done.
  - apply generate_report_partition.
  - intros t n us e. rewrite filter_app, filter_cons, filter_nil; simpl.
    by rewrite app_nil_r.
  - intros t n us e. rewrite filter_app, filter_cons, filter_nil; simpl.
    rewrite fmap_app, sum_list_with_app. simpl. lia.
Qed.



(** ** Extraction *)

(** X5: [extract_table_data] never raises and writes one log line and
    nothing else; it returns the rows of the source relation exactly when
    the source connection is open and the relation exists, [None]
    otherwise. *)
Theorem extract_table_data_total env table_name s :
  exists line,
    extract_table_data env table_name s
    = (set_logged (logged s ++ [line]) s,
       Ok (if source_open s then source_db env !! table_name else None)).
Proof.
  assert (H : wp (extract_table_data env table_name) s (fun s' r => exists line,
    (s', r) = (set_logged (logged s ++ [line]) s,
               Ok (if source_open s then source_db env !! table_name else None)))).
  { unfold extract_table_data, source_open. destruct s as [[[[]]|] tc el db rp lg];
      wp_steps; apply wp_read_sql_query; wp_simpl; try (wp_steps; by eexists).
    destruct (source_db env !! table_name); wp_steps; by eexists. }
  unfold wp in H. destruct H as [line H]. exists line. rewrite <- H.
  by destruct (extract_table_data env table_name s).
Qed.

(** ** Loading *)

(** X6: without the control table, [load_table_data] cannot record its
    outcome: its handler's INSERT fails too and the exception leaves the
    method. *)
Theorem load_needs_the_control_table env df table_name s :
  target_conn s = Some (Connection None false) ->
  table_name ≠ "etl_control" ->
  db_tables (target_db s) !! "etl_control" = None ->
  exists s' e, load_table_data env df table_name s = (s', Raise e).
Proof.
  intros Hc Hne Hctl.
  pose proof (load_table_data_spec env df table_name s Hc Hne) as H.
  unfold wp in H. rewrite Hctl in H. destruct H as [e H].
  exists (load_table_data env df table_name s).1, e.
  rewrite <- H. apply surjective_pairing.
Qed.

Lemma load_needs_the_control_table_witness :
  exists s' e,
    load_table_data (sample_env sample_source Inserted) [product_a] "fact_sales"
      (connected foreign_target)
    = (s', Raise e).
Proof.
  apply (load_needs_the_control_table (sample_env sample_source Inserted) [product_a]
           "fact_sales" (connected foreign_target)).
  - reflexivity.
  - discriminate.
  - reflexivity.
Defined.







(** ** Validation *)

(** X11: [validate_replication] never raises and never touches the
    databases, the execution log or the reports: it returns a boolean and
    only adds log lines, the first of which announces the validation. *)
Theorem validation_only_logs env s :
  exists b vl,
    validate_replication env s
    = (set_logged (logged s ++ LogValidating :: vl) s, Ok b).
Proof.
  pose proof (validate_replication_logs env s) as H. unfold wp in H.
  destruct H as (b & vl & Hr & Hs & _). exists b, vl.
  rewrite <- Hr, <- Hs. apply surjective_pairing.
Qed.

(** X12: when the target's [fact_sales] has no row with a non-NULL
    [total_amount], in particular when it is empty, the validation returns
    [False] whatever the row counts are: SUM is NULL and formatting it for
    the metrics line raises. *)
Theorem validation_fails_without_amounts env s :
  (forall c, target_conn s = Some c ->
     column_numbers "total_amount" (default [] (rows_of "fact_sales" (view c s))) = []) ->
  (validate_replication env s).2 = Ok false.
Proof.
  intros Hnull.
  assert (H : wp (validate_replication env) s (fun _ r => r = Ok false)).
  { unfold validate_replication. destruct s as [sc tc el db rp lg].
    wp_steps. eapply wp_mono; [|apply validate_tables_logs]. wp_simpl.
    intros s' [results|e] (vl & -> & _); [|by wp_steps].
    wp_steps. destruct tc as [[w []]|]; wp_simpl; try by wp_steps.
    specialize (Hnull _ eq_refl). unfold view in Hnull; simpl in Hnull.
    unfold select_metrics, sql_sum.
    destruct (rows_of "fact_sales" (default db w)) as [rows|]; simpl in Hnull;
      [|by wp_steps].
    rewrite Hnull. unfold log_metrics. by wp_steps. }
  exact H.
Qed.

Lemma validation_fails_without_amounts_witness :
  (validate_replication (sample_env (<["fact_sales" := []]> sample_source) Inserted)
     (connected provisioned_schema)).2 = Ok false.
Proof.
  apply (validation_fails_without_amounts
           (sample_env (<["fact_sales" := []]> sample_source) Inserted)
           (connected provisioned_schema)).
  intros c [= <-]. reflexivity.
Defined.

(** ** Runs that stop early or end badly *)

(** X13: when the source connection cannot be opened, the run returns
    [False] after two log lines; the target is never opened, and the target
    file, the execution log and the reports are as they were. *)
Theorem source_connection_failure_stops_the_run env s s' r :
  source_reachable env = false ->
  run_full_replication env s = (s', r) ->
  r = Ok false
  /\ logged s'
     = logged s ++ [LogRunStart; LogSourceConnectError "could not connect to server"]
  /\ target_db s' = target_db s
  /\ execution_log s' = execution_log s
  /\ reports s' = reports s
  /\ (target_conn s = None -> target_conn s' = None).
Proof.
  intros Hsrc Hrun.
  destruct (wp_run _ _ _ _ _ Hrun (run_source_unreachable env s Hsrc)) as [-> ->].
  unfold close_connections, close_source, close_target, bind, modify.
  destruct s as [[h|] [c|] el db rp lg]; simpl; split_and!; try done; by intros [=].
Qed.

Lemma source_connection_failure_stops_the_run_witness :
  (run_full_replication offline_env (init warehouse)).2 = Ok false
  /\ logged (run_full_replication offline_env (init warehouse)).1
     = logged (init warehouse)
       ++ [LogRunStart; LogSourceConnectError "could not connect to server"]
  /\ target_db (run_full_replication offline_env (init warehouse)).1
     = target_db (init warehouse)
  /\ execution_log (run_full_replication offline_env (init warehouse)).1
     = execution_log (init warehouse)
  /\ reports (run_full_replication offline_env (init warehouse)).1
     = reports (init warehouse)
  /\ (target_conn (init warehouse) = None ->
      target_conn (run_full_replication offline_env (init warehouse)).1 = None).
Proof.
  apply (source_connection_failure_stops_the_run offline_env (init warehouse)).
  - reflexivity.
  - apply surjective_pairing.
Defined.

(** X14: when a schema statement fails, the run returns [False] without
    replicating, validating or reporting: four log lines, no new entry in
    the execution log, no report, both connections closed. *)
Theorem schema_failure_stops_the_run env s s' r e :
  source_reachable env = true ->
  target_reachable env = true ->
  schema_script (target_db s) = Raise e ->
  run_full_replication env s = (s', r) ->
  r = Ok false
  /\ logged s'
     = logged s ++ [LogRunStart; LogSourceConnected; LogTargetConnected; LogSchemaError e]
  /\ execution_log s' = execution_log s
  /\ reports s' = reports s
  /\ source_conn s' = Some (Handle true)
  /\ target_conn s' = Some (Connection None true).
Proof.
  intros Hsrc Htgt Hs Hrun.
  destruct (wp_run _ _ _ _ _ Hrun (run_schema_fails env s e Hsrc Htgt Hs))
    as (? & ? & ? & ? & ? & ?).
  by split_and!.
Qed.

Lemma schema_failure_stops_the_run_witness :
  (run_full_replication (sample_env sample_source Inserted) (init foreign_target)).2
  = Ok false
  /\ logged (run_full_replication (sample_env sample_source Inserted)
               (init foreign_target)).1
     = logged (init foreign_target)
       ++ [LogRunStart; LogSourceConnected; LogTargetConnected;
           LogSchemaError "table fact_sales has no column named date_id"]
  /\ execution_log (run_full_replication (sample_env sample_source Inserted)
                      (init foreign_target)).1
     = execution_log (init foreign_target)
  /\ reports (run_full_replication (sample_env sample_source Inserted)
                (init foreign_target)).1
     = reports (init foreign_target)
  /\ source_conn (run_full_replication (sample_env sample_source Inserted)
                    (init foreign_target)).1
     = Some (Handle true)
  /\ target_conn (run_full_replication (sample_env sample_source Inserted)
                    (init foreign_target)).1
     = Some (Connection None true).
Proof.
  apply (schema_failure_stops_the_run (sample_env sample_source Inserted)
           (init foreign_target)).
  - reflexivity.
  - reflexivity.
  - vm_compute. reflexivity.
  - apply surjective_pairing.
Defined.



(** ** The schema and the connections *)

(** X16: without a usable target connection, [create_target_schema] returns
    [False] (it does not raise) and changes nothing but the log. *)
Theorem create_target_schema_needs_a_connection s :
  (forall c, target_conn s = Some c -> closed c = true) ->
  exists e,
    create_target_schema s = (set_logged (logged s ++ [LogSchemaError e]) s, Ok false).
Proof.
  intros Hclosed.
  assert (H : wp create_target_schema s (fun s' r => exists e,
    (s', r) = (set_logged (logged s ++ [LogSchemaError e]) s, Ok false))).
  { unfold create_target_schema. destruct s as [sc [[w []]|] el db rp lg].
    - wp_steps. by eexists.
    - by specialize (Hclosed _ eq_refl).
    - wp_steps. by eexists. }
  unfold wp in H. destruct H as [e H]. exists e. rewrite <- H. apply surjective_pairing.
Qed.

Lemma create_target_schema_needs_a_connection_witness :
  exists e,
    create_target_schema (init warehouse)
    = (set_logged (logged (init warehouse) ++ [LogSchemaError e]) (init warehouse),
       Ok false).
Proof.
  apply (create_target_schema_needs_a_connection (init warehouse)).
  intros c [=].
Defined.

(** X17: provisioning never deletes a row: after a successful
    [create_target_schema] on a connection with no transaction pending,
    every table holds the rows it held (a table just created holds none). *)
Theorem schema_provisioning_keeps_rows s s1 :
  target_conn s = Some (Connection None false) ->
  create_target_schema s = (s1, Ok true) ->
  forall t, default [] (committed_rows t s1) = default [] (committed_rows t s).
Proof.
  intros Hc Hrun t. destruct s as [sc tc el db rp lg]; simpl in Hc; subst tc.
  pose proof (wp_run _ _ _ _ _ Hrun (create_target_schema_wp sc None el db rp lg)) as H.
  simpl in H. destruct (schema_script db) as [final|e] eqn:Hs; [|by destruct H].
  destruct H as [_ ->]. unfold committed_rows; simpl.
  by apply schema_script_keeps_rows.
Qed.

Lemma schema_provisioning_keeps_rows_witness :
  target_conn (connected warehouse) = Some (Connection None false)
  /\ default []
       (committed_rows "dim_product" (create_target_schema (connected warehouse)).1)
     = default [] (committed_rows "dim_product" (connected warehouse)).
Proof.
  split; [reflexivity|].
  apply (schema_provisioning_keeps_rows (connected warehouse)).
  - reflexivity.
  - vm_compute. reflexivity.
Defined.

(** X18: closing the connections never raises and is idempotent: a second
    pass over the [finally] block leaves the state of the first. *)
Theorem close_connections_idempotent s :
  exists s1,
    close_connections s = (s1, Ok tt)
    /\ close_connections s1 = (s1, Ok tt)
    /\ target_db s1 = target_db s.
Proof.
  unfold close_connections, close_source, close_target, bind, modify.
  destruct s as [[h|] [c|] el db rp lg]; simpl; eauto.
Qed.


